(** * Food recognition pipeline: a shallow embedding of
      [src/utils/foodRecognition.ts] and of the save handler of
      [src/screens/ResultScreen.tsx], with the properties the
      specification states about them.

    Conventions of the embedding.
    - A JavaScript [number] is an IEEE 754 binary64 value, modelled by
      [spec_float] with precision 53 and maximal exponent 1024.
    - A JavaScript string is a [string]; labels and nutrient names are
      taken to be ASCII text, on which [toLowerCase] maps [A-Z] to [a-z].
    - [async] code is sequential here: every [await] is a call to the
      outside world, which is a record of functions ([World]); a call
      yields a value or throws a [JsError].
    - Effects (console lines, file reads, HTTP requests) are recorded in
      order in a trace, threaded by a small trace-and-exception monad. *)

From Stdlib Require Import List String Ascii Bool ZArith Lia.
From Stdlib Require Import Sorting.Sorted Sorting.Permutation.
From Stdlib Require Import Floats.SpecFloat Numbers.DecimalString.
Import ListNotations.
Open Scope string_scope.

Set Implicit Arguments.

(** ** JavaScript strings *)

Module JsString.

Definition lower_ascii (c : ascii) : ascii :=
  let n := nat_of_ascii c in
  if andb (Nat.leb 65 n) (Nat.leb n 90) then ascii_of_nat (n + 32) else c.

(** [String.prototype.toLowerCase] *)
Fixpoint toLowerCase (s : string) : string :=
  match s with
  | EmptyString => EmptyString
  | String c s' => String (lower_ascii c) (toLowerCase s')
  end.

(** [s.startsWith(k)] *)
Fixpoint startsWith (k s : string) : bool :=
  match k, s with
  | EmptyString, _ => true
  | String _ _, EmptyString => false
  | String a k', String b s' => andb (Ascii.eqb a b) (startsWith k' s')
  end.

(** [s.includes(k)]: [k] occurs in [s] at some position. *)
Fixpoint includes (s k : string) : bool :=
  orb (startsWith k s)
      (match s with
       | EmptyString => false
       | String _ s' => includes s' k
       end).

(** [xs.join(sep)] on an array of strings. *)
Fixpoint join (sep : string) (xs : list string) : string :=
  match xs with
  | [] => ""
  | [x] => x
  | x :: rest => x ++ sep ++ join sep rest
  end.

(** Truthiness of a string: only the empty string is falsy. *)
Definition truthy (s : string) : bool :=
  match s with EmptyString => false | _ => true end.

(** [s || d] on strings. *)
Definition or_else (s d : string) : string :=
  if truthy s then s else d.

End JsString.

(** ** JavaScript numbers *)

Module JsNumber.
Local Open Scope Z_scope.

Definition number := spec_float.

Definition prec : Z := 53.
Definition emax : Z := 1024.

Definition sub : number -> number -> number := SFsub prec emax.
Definition mul : number -> number -> number := SFmul prec emax.
Definition div : number -> number -> number := SFdiv prec emax.

(** An integer literal. *)
Definition of_Z (z : Z) : number := binary_normalize prec emax z 0 false.

(** A decimal literal [n / 10^k], correctly rounded. *)
Definition decimal (n : Z) (k : nat) : number :=
  div (of_Z n) (of_Z (10 ^ Z.of_nat k)).

Definition is_nan (x : number) : bool :=
  match x with S754_nan => true | _ => false end.

(** Truthiness: [NaN], [+0] and [-0] are falsy. *)
Definition truthy (x : number) : bool :=
  match x with
  | S754_nan | S754_zero _ => false
  | _ => true
  end.

Definition zero : number := S754_zero false.

(** [x || 0] *)
Definition or_zero (x : number) : number :=
  if truthy x then x else zero.

(** [x === y] on numbers. *)
Definition strict_eq (x y : number) : bool := SFeqb x y.

(** Well-formed binary64 value. *)
Definition valid (x : number) : bool := valid_binary prec emax x.

End JsNumber.
Import JsNumber.

(** ** [Number.prototype.toFixed] and [encodeURIComponent] *)

Module JsBuiltins.
Local Open Scope Z_scope.

Definition decimal_digits (n : Z) : string :=
  DecimalString.NilZero.string_of_uint (N.to_uint (Z.to_N n)).

Fixpoint zeros (k : nat) : string :=
  match k with O => "" | S k' => String "0" (zeros k') end.

(** The integer [n] for which [n / 10^f - x] is as close to zero as
    possible, the larger one when there are two, for [x = m * 2^e >= 0]. *)
Definition nearest_scaled (f : nat) (m : positive) (e : Z) : Z :=
  let p := 10 ^ Z.of_nat f in
  match e with
  | Zneg k => (2 * Zpos m * p + 2 ^ Zpos k) / (2 * 2 ^ Zpos k)
  | _ => Zpos m * 2 ^ e * p
  end.

(** [x >= 10^21] for [x = m * 2^e]. *)
Definition at_least_1e21 (m : positive) (e : Z) : bool :=
  match e with
  | Zneg k => Z.leb (10 ^ 21 * 2 ^ Zpos k) (Zpos m)
  | _ => Z.leb (10 ^ 21) (Zpos m * 2 ^ e)
  end.

(** Steps 10.b to 10.d of [toFixed]: pad the digits of [n] to at least
    [f + 1] characters and put a point before the last [f]. *)
Definition place_point (f : nat) (n : Z) : string :=
  let m := decimal_digits n in
  let k := String.length m in
  let m := if Nat.leb k f then zeros (f + 1 - k)%nat ++ m else m in
  let k := String.length m in
  if Nat.eqb f 0 then m
  else substring 0 (k - f)%nat m ++ "." ++ substring (k - f)%nat f m.

(** [x.toFixed(f)].  [toString] is [Number::toString], which the
    algorithm defers to for magnitudes of [10^21] and above. *)
Definition toFixed (toString : number -> string) (f : nat) (x : number) : string :=
  match x with
  | S754_nan => "NaN"
  | S754_infinity false => "Infinity"
  | S754_infinity true => "-Infinity"
  | S754_zero _ => place_point f 0
  | S754_finite s m e =>
      let sign := if s then "-" else "" in
      if at_least_1e21 m e
      then sign ++ toString (S754_finite false m e)
      else sign ++ place_point f (nearest_scaled f m e)
  end.

Definition hex_digit (n : nat) : ascii :=
  if Nat.ltb n 10 then ascii_of_nat (48 + n)%nat else ascii_of_nat (55 + n)%nat.

(** Characters [encodeURIComponent] leaves alone:
    letters, digits and [- _ . ! ~ * ' ( )]. *)
Definition uri_unreserved (c : ascii) : bool :=
  let n := nat_of_ascii c in
  orb (andb (Nat.leb 65 n) (Nat.leb n 90)%nat)
 (orb (andb (Nat.leb 97 n) (Nat.leb n 122)%nat)
 (orb (andb (Nat.leb 48 n) (Nat.leb n 57)%nat)
      (existsb (Nat.eqb n) [45; 95; 46; 33; 126; 42; 39; 40; 41]%nat))).

Fixpoint encodeURIComponent (s : string) : string :=
  match s with
  | EmptyString => EmptyString
  | String c s' =>
      if uri_unreserved c then String c (encodeURIComponent s')
      else
        let n := nat_of_ascii c in
        String "%" (String (hex_digit (n / 16)%nat) (String (hex_digit (n mod 16)%nat)
               (encodeURIComponent s')))
  end.

(** [Array.prototype.sort] with a comparator.  The language fixes the
    result for a consistent comparator: the stable ordering, which
    insertion from the right computes. *)
Section Sort.
Variable A : Type.
Variable comparefn : A -> A -> number.

(** How [SortCompare] reads the comparator's value [v]: [Lt] for [v < 0],
    [Gt] for [v > 0], [Eq] for a zero and for [NaN]. *)
Definition sign_of (v : number) : comparison :=
  match v with
  | S754_nan | S754_zero _ => Eq
  | S754_infinity s | S754_finite s _ _ => if s then Lt else Gt
  end.

Definition SortCompare (x y : A) : comparison := sign_of (comparefn x y).

Fixpoint insert (x : A) (l : list A) : list A :=
  match l with
  | [] => [x]
  | y :: l' =>
      match SortCompare x y with
      | Gt => y :: insert x l'
      | _ => x :: l
      end
  end.

Definition sort (l : list A) : list A := fold_right insert [] l.
End Sort.

(** [Array.prototype.find]. *)
Definition find_ {A} (f : A -> bool) (l : list A) : option A := List.find f l.

End JsBuiltins.
Import JsBuiltins.

(** ** Data of the program *)

Record NutritionalData := {
  calories : number;
  protein : number;
  carbs : number;
  fat : number;
  fiber : option number;
  sugar : option number;
  sodium : option number }.

Record FoodAnalysisResult := {
  name : string;
  description : string;
  nutritionalData : option NutritionalData;
  isFoodItem : bool }.

(** An element of [allAnnotations]. *)
Record Annotation := { type_ : string; a_description : string; score : number }.

(** The row [handleSaveToHistory] inserts into the [meals] table. *)
Record MealItem := {
  item_name : string;
  item_calories : number; item_protein : number; item_carbs : number; item_fats : number;
  item_fiber : number; item_sugar : number; item_sodium : number }.

Record MealTotal := {
  total_calories : number; total_protein : number; total_carbs : number; total_fats : number;
  total_fiber : number; total_sugar : number; total_sodium : number }.

Record AnalysisData := { items : list MealItem; total : MealTotal }.

Record MealRow := { user_id : string; image_url : string; analysis_data : AnalysisData }.

(** ** Errors, effects and the outside world *)

(** The [response] member axios attaches to a rejected request. *)
Record ErrorResponse := { status : Z; data : string }.

(** A thrown [Error]: its [message], and [response] when axios threw it. *)
Record JsError := { message : string; response : option ErrorResponse }.

(** [new Error(msg)] *)
Definition new_Error (msg : string) : JsError :=
  {| message := msg; response := None |}.

(** Second argument of a console call.  [LogJson] stands for a
    [JSON.stringify] dump, whose text is not modelled. *)
Inductive LogArg :=
| LogNothing
| LogJson
| LogText (s : string)
| LogKey (k : option string)
| LogError (e : JsError).

(** Body of the request sent to the vision service. *)
Record VisionFeature := { feature_type : string; maxResults : Z }.
Record VisionRequest := { content : string; features : list VisionFeature }.

Inductive Event :=
| console_log (line : string) (arg : LogArg)
| console_error (line : string) (arg : LogArg)
| fs_read (uri : string)
| http_post (url : string) (body : VisionRequest)
| http_get (url : string)
| supabase_insert (table : string) (rows : list MealRow)
| Alert_alert (title text : string)
| navigation_navigate (screen : string)
| setIsSaved (saved : bool).

(** Computations: the events performed, then a thrown error or a value. *)
Module Effect.

Definition M (A : Type) : Type := list Event * (JsError + A).

Definition ret {A} (a : A) : M A := ([], inr a).

Definition throw {A} (e : JsError) : M A := ([], inl e).

Definition emit (ev : Event) : M unit := ([ev], inr tt).

Definition bind {A B} (m : M A) (f : A -> M B) : M B :=
  match m with
  | (t, inl e) => (t, inl e)
  | (t, inr a) => let '(t', r) := f a in ((t ++ t')%list, r)
  end.

(** [try { m } catch (error) { h error }] *)
Definition try_catch {A} (m : M A) (h : JsError -> M A) : M A :=
  match m with
  | (t, inl e) => let '(t', r) := h e in ((t ++ t')%list, r)
  | (t, inr a) => (t, inr a)
  end.

(** An awaited call to the outside: record the event, then take the
    outcome the world gives. *)
Definition await {A} (ev : Event) (outcome : JsError + A) : M A :=
  ([ev], outcome).

Definition trace {A} (m : M A) : list Event := fst m.
Definition outcome {A} (m : M A) : JsError + A := snd m.

End Effect.
Import Effect.

Notation "x <- m ;; k" := (bind m (fun x => k))
  (at level 61, m at next level, right associativity).
Notation "m ;;; k" := (bind m (fun _ => k))
  (at level 61, right associativity).
Notation "' pat <- m ;; k" := (bind m (fun x => match x with pat => k end))
  (at level 61, pat pattern, m at next level, right associativity).

(** *** Response shapes of the two services *)

Record LabelAnnotation := { la_description : string; la_score : number }.
Record ObjectAnnotation := { oa_name : string; oa_score : number }.

Record AnnotateImageResponse := {
  labelAnnotations : option (list LabelAnnotation);
  localizedObjectAnnotations : option (list ObjectAnnotation) }.

Record VisionApiResponse := { responses : list AnnotateImageResponse }.

Record Nutrient := { nutrientName : string; value : number; unitName : string }.

Record FoodData := {
  fdcId : Z;
  fd_description : string;
  foodCategory : option string;
  foodNutrients : list Nutrient }.

Record UsdaSearchResponse := { foods : list FoodData }.

(** Everything outside the program: the configuration read from [@env],
    the file system, the two HTTP services, and two engine-defined
    behaviours of the language. *)
Record World := {
  GOOGLE_API_KEY : option string;
  USDA_API_KEY : option string;
  readAsStringAsync : string -> JsError + string;
  axios_post : string -> VisionRequest -> JsError + VisionApiResponse;
  axios_get : string -> JsError + UsdaSearchResponse;
  (** [supabase.from(table).insert(rows)]: it throws, or resolves to an
      object whose [error] member is set on failure *)
  supabase_from_insert : string -> list MealRow -> JsError + option JsError;
  (** [Number::toString], used by [toFixed] from [10^21] on *)
  Number_toString : number -> string;
  (** the [TypeError] raised on reading a property of [undefined] *)
  TypeError_of_undefined : string -> JsError }.

(** Truthiness of a configuration key, and its text in a template. *)
Definition key_set (k : option string) : bool :=
  match k with Some s => JsString.truthy s | None => false end.

Definition key_text (k : option string) : string :=
  match k with Some s => s | None => "undefined" end.

(** ** [src/utils/foodRecognition.ts] *)

Module FoodRecognition.

Definition GOOGLE_VISION_API_URL : string :=
  "https://vision.googleapis.com/v1/images:annotate".

Definition USDA_API_URL : string := "https://api.nal.usda.gov/fdc/v1".

(** The sentinel name. *)
Definition Unknown_Food : string := "Unknown Food".

Definition foodKeywords : list string := [
  "sushi"; "croissant"; "fish"; "tuna"; "salmon"; "cod"; "shrimp"; "lobster"; "crab"; "oyster"; "clam";
  "orange"; "pineapple"; "apple"; "banana"; "grape"; "watermelon"; "kiwi"; "mango"; "papaya"; "peach";
  "pear"; "plum"; "cherry"; "strawberry"; "blueberry"; "raspberry"; "blackberry"; "coconut"; "avocado";
  "broccoli"; "carrot"; "spinach"; "kale"; "lettuce"; "cucumber"; "zucchini"; "eggplant"; "pepper";
  "tomato"; "potato"; "onion"; "garlic"; "ginger"; "mushroom"; "pumpkin"; "squash"; "corn"; "peas";
  "chicken"; "beef"; "pork"; "lamb"; "duck"; "turkey"; "bacon"; "sausage"; "hotdog"; "steak"; "ham";
  "pizza"; "burger"; "sandwich"; "taco"; "burrito"; "quesadilla"; "pasta"; "spaghetti"; "lasagna";
  "ravioli"; "noodles"; "soup"; "stew"; "chowder"; "salad"; "cake"; "pie"; "cookie"; "brownie";
  "donut"; "muffin"; "pancake"; "waffle"; "croissant"; "bagel"; "toast"; "cheese"; "yogurt"; "milk";
  "ice cream"; "chocolate"; "candy"; "honey"; "jam"; "jelly"; "syrup"; "tea"; "coffee"; "juice";
  "smoothie"; "soda"; "beer"; "wine"; "whiskey"; "cocktail";
  "hotdog"; "sushi"; "fish"; "tuna"; "orange"; "pineapple";
  "paneer"; "dal"; "samosa"; "pakora"; "biryani"; "naan"; "roti"; "paratha"; "chapati"; "idli";
  "dosa"; "uttapam"; "poha"; "upma"; "chole"; "rajma"; "kadhi"; "sabzi"; "aloo"; "gobi"; "bhindi";
  "baingan"; "kheer"; "gulab jamun"; "jalebi"; "laddu"; "halwa"; "pulao"; "khichdi"; "rasgulla";
  "malai kofta"; "palak paneer"; "matar paneer"; "veg curry"; "veg biryani"; "veg pulao"; "tikka";
  "chaat"; "pani puri"; "bhel puri"; "sev puri"; "dahi puri"; "vada pav"; "misal pav"; "pav bhaji" ].

(** [foodKeywords.some(keyword => desc.toLowerCase().includes(keyword))] *)
Definition isFoodRelated (desc : string) : bool :=
  existsb (fun keyword => JsString.includes (JsString.toLowerCase desc) keyword)
          foodKeywords.

Definition genericCategories : list string :=
  ["food"; "staple food"; "dish"; "meal"; "fruit"; "vegetable"; "meat"; "bread";
   "drink"; "beverage"; "produce"; "plant"; "cuisine"].

(** [genericCategories.includes(desc.toLowerCase())] *)
Definition isGenericCategory (desc : string) : bool :=
  existsb (String.eqb (JsString.toLowerCase desc)) genericCategories.

(** Lines 151-154: labels, then objects, sorted by [b.score - a.score]. *)
Definition mergeAnnotations (data : AnnotateImageResponse) : list Annotation :=
  (map (fun a => {| type_ := "label"; a_description := la_description a; score := la_score a |})
       (match labelAnnotations data with Some l => l | None => [] end)
   ++
   map (fun a => {| type_ := "object"; a_description := oa_name a; score := oa_score a |})
       (match localizedObjectAnnotations data with Some l => l | None => [] end))%list.

Definition byScoreDescending (a b : Annotation) : number := sub (score b) (score a).

Definition allAnnotationsOf (data : AnnotateImageResponse) : list Annotation :=
  sort byScoreDescending (mergeAnnotations data).

(** Lines 156-175: the pair [(usdaQueryName, name)] the selection leaves
    in the two variables. *)
Definition selectNames (allAnnotations : list Annotation) : M (string * string) :=
  let name := Unknown_Food in
  let bestAnnotationForDisplay :=
    find_ (fun a => isFoodRelated (a_description a)) allAnnotations in
  let usdaQueryName := name in
  let specificAnnotation :=
    find_ (fun a => andb (isFoodRelated (a_description a))
                         (negb (isGenericCategory (a_description a))))
          allAnnotations in
  match specificAnnotation with
  | Some specific =>
      let usdaQueryName := a_description specific in
      emit (console_log ("Selected specific food name for USDA API: " ++ usdaQueryName) LogNothing) ;;;
      ret (usdaQueryName, JsString.or_else (a_description specific) Unknown_Food)
  | None =>
      match bestAnnotationForDisplay with
      | Some best =>
          let usdaQueryName := a_description best in
          let name := JsString.or_else (a_description best) Unknown_Food in
          emit (console_log ("No specific food name found, using display name for USDA API: "
                             ++ usdaQueryName) LogNothing) ;;;
          ret (usdaQueryName, name)
      | None =>
          match allAnnotations with
          | top :: _ =>
              let usdaQueryName := a_description top in
              let name := JsString.or_else (a_description top) Unknown_Food in
              emit (console_log ("No food-related name found, using top annotation for USDA API: "
                                 ++ usdaQueryName) LogNothing) ;;;
              ret (usdaQueryName, name)
          | [] => ret (usdaQueryName, name)
          end
      end
  end.

(** Line 178: one annotation of the description. *)
Definition renderAnnotation (w : World) (a : Annotation) : string :=
  a_description a ++ " (" ++ toFixed (Number_toString w) 2 (mul (score a) (of_Z 100))
                  ++ "%) [" ++ type_ a ++ "]".

(** Lines 118 and 177-179. *)
Definition describe (w : World) (bestAnnotationForDisplay : option Annotation)
           (allAnnotations : list Annotation) : string :=
  let description := "No detailed description available." in
  if orb (match bestAnnotationForDisplay with Some _ => true | None => false end)
         (Nat.ltb 0 (List.length allAnnotations))
  then JsString.join ", " (map (renderAnnotation w) allAnnotations)
  else description.

(** Lines 240-245: the record extraction starts from. *)
Definition initialNutritionalData : NutritionalData :=
  {| calories := of_Z 0; protein := of_Z 0; carbs := of_Z 0; fat := of_Z 0;
     fiber := None; sugar := None; sodium := None |}.

(** Lines 248-263: the body of the [forEach], on one nutrient. *)
Definition updateNutrient (nutritionalData : NutritionalData) (nutrient : Nutrient)
  : NutritionalData :=
  let nd := nutritionalData in
  let name := JsString.toLowerCase (nutrientName nutrient) in
  if JsString.includes name "energy" then
    {| calories := value nutrient; protein := protein nd; carbs := carbs nd; fat := fat nd;
       fiber := fiber nd; sugar := sugar nd; sodium := sodium nd |}
  else if JsString.includes name "protein" then
    {| calories := calories nd; protein := value nutrient; carbs := carbs nd; fat := fat nd;
       fiber := fiber nd; sugar := sugar nd; sodium := sodium nd |}
  else if JsString.includes name "carbohydrate" then
    {| calories := calories nd; protein := protein nd; carbs := value nutrient; fat := fat nd;
       fiber := fiber nd; sugar := sugar nd; sodium := sodium nd |}
  else if orb (JsString.includes name "total lipid") (JsString.includes name "fat") then
    {| calories := calories nd; protein := protein nd; carbs := carbs nd; fat := value nutrient;
       fiber := fiber nd; sugar := sugar nd; sodium := sodium nd |}
  else if JsString.includes name "fiber" then
    {| calories := calories nd; protein := protein nd; carbs := carbs nd; fat := fat nd;
       fiber := Some (value nutrient); sugar := sugar nd; sodium := sodium nd |}
  else if JsString.includes name "sugar" then
    {| calories := calories nd; protein := protein nd; carbs := carbs nd; fat := fat nd;
       fiber := fiber nd; sugar := Some (value nutrient); sodium := sodium nd |}
  else if JsString.includes name "sodium" then
    {| calories := calories nd; protein := protein nd; carbs := carbs nd; fat := fat nd;
       fiber := fiber nd; sugar := sugar nd; sodium := Some (value nutrient) |}
  else nd.

(** Lines 240-266: [forEach] runs the body over the list in order. *)
Definition extractNutrients (foodNutrients : list Nutrient) : NutritionalData :=
  fold_left updateNutrient foodNutrients initialNutritionalData.

(** Line 227: the search URL. *)
Definition searchUrl (w : World) (foodName : string) : string :=
  USDA_API_URL ++ "/foods/search?query=" ++ encodeURIComponent foodName
    ++ "&dataType=Survey%20(FNDDS)&pageSize=5&api_key=" ++ key_text (USDA_API_KEY w).

(** Lines 217-266: the body of the [try] of [fetchNutritionalData]. *)
Definition fetchNutritionalData_body (w : World) (foodName : string) : M NutritionalData :=
  emit (console_log "Using USDA_API_KEY:" (LogKey (USDA_API_KEY w))) ;;;
  (if negb (key_set (USDA_API_KEY w))
   then throw (new_Error "USDA API key is not set. Please configure it in your .env and app.json.")
   else ret tt) ;;;
  searchResponse <- await (http_get (searchUrl w foodName)) (axios_get w (searchUrl w foodName)) ;;
  emit (console_log ("USDA API Search Results for " ++ foodName ++ ":") LogJson) ;;;
  match foods searchResponse with
  | [] => throw (new_Error ("No matching food found for " ++ foodName))
  | foodData :: _ =>
      emit (console_log ("Selected Food Data for " ++ foodName ++ ":") LogJson) ;;;
      ret (extractNutrients (foodNutrients foodData))
  end.

Definition fetchNutritionalData (w : World) (foodName : string) : M NutritionalData :=
  try_catch (fetchNutritionalData_body w foodName)
    (fun error =>
       emit (console_error "USDA API Error:" (LogText (message error))) ;;;
       throw (new_Error ("Failed to fetch nutritional data for " ++ foodName))).

(** Lines 86-104: the request body. *)
Definition visionRequest (base64Image : string) : VisionRequest :=
  {| content := base64Image;
     features := [ {| feature_type := "LABEL_DETECTION"; maxResults := 10 |};
                   {| feature_type := "OBJECT_LOCALIZATION"; maxResults := 10 |} ] |}.

Definition visionUrl (w : World) : string :=
  GOOGLE_VISION_API_URL ++ "?key=" ++ key_text (GOOGLE_API_KEY w).

(** Lines 181-191: the lookup, with its failure absorbed. *)
Definition lookupNutrition (w : World) (usdaQueryName : string)
  : M (option NutritionalData * bool) :=
  if negb (String.eqb usdaQueryName Unknown_Food) then
    nutritionalData <-
      try_catch (nd <- fetchNutritionalData w usdaQueryName ;; ret (Some nd))
        (fun error =>
           emit (console_error "Error fetching nutritional data from USDA API:" (LogError error)) ;;;
           ret None) ;;
    ret (nutritionalData, true)
  else ret (None, false).

(** Lines 70-116: the call to the vision service, up to [data]. *)
Definition classify (w : World) (imageUri : string) : M AnnotateImageResponse :=
  emit (console_log "Using GOOGLE_API_KEY:" (LogKey (GOOGLE_API_KEY w))) ;;;
  (if negb (key_set (GOOGLE_API_KEY w))
   then throw (new_Error
     "Google Cloud Vision API key is not set. Please configure it in your .env and app.json.")
   else ret tt) ;;;
  base64Image <- await (fs_read imageUri) (readAsStringAsync w imageUri) ;;
  response <- await (http_post (visionUrl w) (visionRequest base64Image))
                    (axios_post w (visionUrl w) (visionRequest base64Image)) ;;
  emit (console_log "Google Vision API Response:" LogJson) ;;;
  match responses response with
  | data :: _ => ret data
  | [] => throw (TypeError_of_undefined w "labelAnnotations")
  end.

(** Lines 117-198: from [data] to the returned record. *)
Definition assemble (w : World) (data : AnnotateImageResponse) : M FoodAnalysisResult :=
  let allAnnotations := allAnnotationsOf data in
  let bestAnnotationForDisplay :=
    find_ (fun a => isFoodRelated (a_description a)) allAnnotations in
  '(usdaQueryName, name) <- selectNames allAnnotations ;;
  let description := describe w bestAnnotationForDisplay allAnnotations in
  '(nutritionalData, isFoodItem) <- lookupNutrition w usdaQueryName ;;
  ret {| name := name; description := description;
         nutritionalData := nutritionalData; isFoodItem := isFoodItem |}.

(** Lines 70-198: the body of the [try] of [analyzeFoodImage]. *)
Definition analyzeFoodImage_body (w : World) (imageUri : string) : M FoodAnalysisResult :=
  data <- classify w imageUri ;;
  assemble w data.

(** Lines 199-208: the [catch] of [analyzeFoodImage]. *)
Definition analyzeFoodImage_catch (error : JsError) : M FoodAnalysisResult :=
  emit (console_error "Error analyzing food image with Google Cloud Vision API:"
                      (LogError error)) ;;;
  match response error with
  | Some r => emit (console_error "Google Vision API Error Response:" (LogText (data r)))
  | None => ret tt
  end ;;;
  if match response error with Some r => Z.eqb (status r) 403 | None => false end
  then throw (new_Error
    "Google Cloud Vision API access denied (403). Please check if your API key is valid and the API is enabled for your project.")
  else throw (new_Error ("Failed to analyze food image. Please try again. Error: "
                         ++ JsString.or_else (message error) "Unknown error")).

Definition analyzeFoodImage (w : World) (imageUri : string) : M FoodAnalysisResult :=
  try_catch (analyzeFoodImage_body w imageUri) analyzeFoodImage_catch.

End FoodRecognition.

(** ** [src/screens/ResultScreen.tsx]: the save handler *)

Module ResultScreen.

Record User := { id : string }.

(** The state variable [foodData]. *)
Record FoodDataState := {
  fd_name : string;
  fd_text : string;
  fd_nutritionalData : option NutritionalData;
  fd_isFoodItem : option bool }.

(** What the handler reads: [user] from the auth context, [imageUri]
    from the route, and the state variables [foodData] and [isSaved]. *)
Record Screen := {
  user : option User;
  imageUri : option string;
  foodData : option FoodDataState;
  isSaved : bool }.

(** [setFoodData(result)] of line 68. *)
Definition ofResult (r : FoodAnalysisResult) : FoodDataState :=
  {| fd_name := name r; fd_text := description r;
     fd_nutritionalData := nutritionalData r; fd_isFoodItem := Some (isFoodItem r) |}.

(** [foodData.nutritionalData?.f || 0] for a required member [f]. *)
Definition required_or_zero (nd : option NutritionalData) (f : NutritionalData -> number)
  : number :=
  match nd with Some d => or_zero (f d) | None => zero end.

(** [foodData.nutritionalData?.f || 0] for an optional member [f]. *)
Definition optional_or_zero (nd : option NutritionalData)
           (f : NutritionalData -> option number) : number :=
  match nd with
  | Some d => match f d with Some x => or_zero x | None => zero end
  | None => zero
  end.

(** Lines 114-136. *)
Definition analysisDataOf (fd : FoodDataState) : AnalysisData :=
  let nd := fd_nutritionalData fd in
  {| items := [ {| item_name := fd_name fd;
                   item_calories := required_or_zero nd calories;
                   item_protein := required_or_zero nd protein;
                   item_carbs := required_or_zero nd carbs;
                   item_fats := required_or_zero nd fat;
                   item_fiber := optional_or_zero nd fiber;
                   item_sugar := optional_or_zero nd sugar;
                   item_sodium := optional_or_zero nd sodium |} ];
     total := {| total_calories := required_or_zero nd calories;
                 total_protein := required_or_zero nd protein;
                 total_carbs := required_or_zero nd carbs;
                 total_fats := required_or_zero nd fat;
                 total_fiber := optional_or_zero nd fiber;
                 total_sugar := optional_or_zero nd sugar;
                 total_sodium := optional_or_zero nd sodium |} |}.

Definition is_true (b : option bool) : bool :=
  match b with Some true => true | _ => false end.

(** Lines 96-161. *)
Definition handleSaveToHistory (w : World) (s : Screen) : M unit :=
  match user s, imageUri s, foodData s with
  | Some user, Some imageUri, Some foodData =>
      if negb (JsString.truthy imageUri) then
        emit (Alert_alert "Info" "Data incomplete. Cannot save to history.")
      else if orb (negb (is_true (fd_isFoodItem foodData)))
                  (match fd_nutritionalData foodData with Some _ => false | None => true end)
      then
        emit (Alert_alert "Error"
          "This does not appear to be a recognizable food item. Cannot save to history.")
      else if isSaved s then
        emit (Alert_alert "Info" "Meal already saved to history.") ;;;
        emit (navigation_navigate "History")
      else
        try_catch
          (let analysisData := analysisDataOf foodData in
           let rows := [ {| user_id := id user; image_url := imageUri;
                            analysis_data := analysisData |} ] in
           error <- await (supabase_insert "meals" rows) (supabase_from_insert w "meals" rows) ;;
           match error with
           | Some error =>
               emit (console_error "Error saving meal to Supabase:" (LogError error)) ;;;
               emit (Alert_alert "Error" "Failed to save meal data")
           | None =>
               emit (console_log "Meal saved to Supabase:" LogJson) ;;;
               emit (setIsSaved true) ;;;
               emit (Alert_alert "Success" "Meal saved to history!") ;;;
               emit (navigation_navigate "History")
           end)
          (fun err =>
             emit (console_error "Unexpected error saving meal:" (LogError err)) ;;;
             emit (Alert_alert "Error" "Unexpected error occurred"))
  | _, _, _ => emit (Alert_alert "Info" "Data incomplete. Cannot save to history.")
  end.

End ResultScreen.


(** * Vocabulary of the properties *)

Import FoodRecognition.

(** [a] is the first element of [l] on which [P] holds. *)
Definition first_such {A} (P : A -> bool) (l : list A) (a : A) : Prop :=
  exists pre post, l = (pre ++ a :: post)%list
                   /\ forallb (fun x => negb (P x)) pre = true
                   /\ P a = true.

(** [P] holds on no element of [l]. *)
Definition none_such {A} (P : A -> bool) (l : list A) : Prop :=
  forallb (fun x => negb (P x)) l = true.

Definition foodRelated (a : Annotation) : bool := isFoodRelated (a_description a).

Definition specificFood (a : Annotation) : bool :=
  andb (isFoodRelated (a_description a)) (negb (isGenericCategory (a_description a))).

(** The annotation the priority order designates in a sequence: the first
    specific food, else the first food-related one, else the first one. *)
Definition priority_choice (l : list Annotation) (a : Annotation) : Prop :=
  first_such specificFood l a
  \/ (none_such specificFood l /\ first_such foodRelated l a)
  \/ (none_such foodRelated l /\ hd_error l = Some a).

(** The selection as the specification words it: the text of the designated
    annotation is both the query and the display name. *)
Definition selects_text_for_both (l : list Annotation) : Prop :=
  exists a, priority_choice l a
            /\ outcome (selectNames l) = inr (a_description a, a_description a).

Definition label (text : string) (s : number) : Annotation :=
  {| type_ := "label"; a_description := text; score := s |}.

(** A sequence whose only annotation has an empty text. *)
Definition emptyTextSequence : list Annotation := [ label "" (decimal 8 1) ].

(** Scenario A: two labels, as the vision service returns them. *)
Definition scenarioA : AnnotateImageResponse :=
  {| labelAnnotations := Some [ {| la_description := "hot dog"; la_score := decimal 95 2 |};
                                {| la_description := "fast food"; la_score := decimal 80 2 |} ];
     localizedObjectAnnotations := None |}.

(** ** Nutrient extraction *)

(** The members of [NutritionalData]. *)
Inductive Category := Calories | Protein | Carbs | Fat | Fiber | Sugar | Sodium.

(** The member of a record for a category; [None] is [undefined]. *)
Definition field (c : Category) (nd : NutritionalData) : option number :=
  match c with
  | Calories => Some (calories nd)
  | Protein => Some (protein nd)
  | Carbs => Some (carbs nd)
  | Fat => Some (fat nd)
  | Fiber => fiber nd
  | Sugar => sugar nd
  | Sodium => sodium nd
  end.

(** The members the type requires. *)
Definition required (c : Category) : bool :=
  match c with Calories | Protein | Carbs | Fat => true | _ => false end.

(** A nutrient name contains a substring of the category. *)
Definition mentions (c : Category) (nutrientName : string) : bool :=
  let name := JsString.toLowerCase nutrientName in
  match c with
  | Calories => JsString.includes name "energy"
  | Protein => JsString.includes name "protein"
  | Carbs => JsString.includes name "carbohydrate"
  | Fat => orb (JsString.includes name "total lipid") (JsString.includes name "fat")
  | Fiber => JsString.includes name "fiber"
  | Sugar => JsString.includes name "sugar"
  | Sodium => JsString.includes name "sodium"
  end.

(** The order in which the chain tries the categories. *)
Definition chainOrder : list Category :=
  [Calories; Protein; Carbs; Fat; Fiber; Sugar; Sodium].

(** The category of a nutrient: the first one in chain order that its
    name mentions. *)
Definition categoryOf (n : Nutrient) : option Category :=
  List.find (fun c => mentions c (nutrientName n)) chainOrder.

Definition nutrient (name : string) (v : Z) : Nutrient :=
  {| nutrientName := name; value := of_Z v; unitName := "G" |}.

(** Every member is 0 after extraction when no nutrient has its category. *)
Definition every_field_defaults_to_zero (l : list Nutrient) : Prop :=
  forall c, Forall (fun n => categoryOf n <> Some c) l ->
            field c (extractNutrients l) = Some zero.

(** ** The orchestrator *)

(** [fetchNutritionalData] was called: its first statement left its line
    on the console. *)
Definition lookup_attempted (w : World) (t : list Event) : Prop :=
  In (console_log "Using USDA_API_KEY:" (LogKey (USDA_API_KEY w))) t.

(** The query the relevance filter selects on a response. *)
Definition selectedQuery (data : AnnotateImageResponse) : string :=
  match outcome (selectNames (allAnnotationsOf data)) with
  | inr (usdaQueryName, _) => usdaQueryName
  | inl _ => Unknown_Food
  end.

Definition selectedName (data : AnnotateImageResponse) : string :=
  match outcome (selectNames (allAnnotationsOf data)) with
  | inr (_, name) => name
  | inl _ => Unknown_Food
  end.

(** The record the orchestrator assembles from a response. *)
Definition assembled (w : World) (data : AnnotateImageResponse) : FoodAnalysisResult :=
  let q := selectedQuery data in
  {| name := selectedName data;
     description := describe w (find_ foodRelated (allAnnotationsOf data))
                             (allAnnotationsOf data);
     nutritionalData := if String.eqb q Unknown_Food then None
                        else match outcome (fetchNutritionalData w q) with
                             | inr nd => Some nd
                             | inl _ => None
                             end;
     isFoodItem := negb (String.eqb q Unknown_Food) |}.

(** ** Reading a URL's query string *)

(** The text after the first [c] of [s], if [c] occurs. *)
Fixpoint after_first (c : ascii) (s : string) : option string :=
  match s with
  | EmptyString => None
  | String a s' => if Ascii.eqb a c then Some s' else after_first c s'
  end.

(** The text before the first [c] of [s]. *)
Fixpoint before_first (c : ascii) (s : string) : string :=
  match s with
  | EmptyString => EmptyString
  | String a s' => if Ascii.eqb a c then EmptyString else String a (before_first c s')
  end.

(** [s.split(c)] *)
Fixpoint split_on (c : ascii) (s : string) : list string :=
  match s with
  | EmptyString => [EmptyString]
  | String a s' =>
      if Ascii.eqb a c then EmptyString :: split_on c s'
      else match split_on c s' with
           | h :: t => String a h :: t
           | [] => [String a EmptyString]
           end
  end.

Fixpoint has_char (c : ascii) (s : string) : bool :=
  match s with
  | EmptyString => false
  | String a s' => orb (Ascii.eqb a c) (has_char c s')
  end.

(** The value of the first parameter called [name] in the query string of
    [url], as a server reads [?a=1&b=2]. *)
Definition queryParameter (name url : string) : option string :=
  match after_first "?" url with
  | None => None
  | Some query =>
      match List.find (fun segment => String.eqb (before_first "=" segment) name)
                      (split_on "&" query) with
      | Some segment => after_first "=" segment
      | None => None
      end
  end.

(** ** Worlds for the scenarios *)

Definition hotDogRecord : FoodData :=
  {| fdcId := 1; fd_description := "Frankfurter or hot dog"; foodCategory := None;
     foodNutrients := [ nutrient "Energy" 290; nutrient "Protein" 10;
                        nutrient "Sodium, Na" 100; nutrient "Sodium, Na" 120 ] |}.

Definition otherRecord : FoodData :=
  {| fdcId := 2; fd_description := "Hot dog bun"; foodCategory := None;
     foodNutrients := [ nutrient "Energy" 120 ] |}.

(** A world in which the vision service answers [vision] and the nutrition
    service answers [usda]. *)
Definition scenarioWorld (vision : JsError + VisionApiResponse)
           (usda : JsError + UsdaSearchResponse) : World :=
  {| GOOGLE_API_KEY := Some "vision-key";
     USDA_API_KEY := Some "usda-key";
     readAsStringAsync := fun _ => inr "aW1hZ2U=";
     axios_post := fun _ _ => vision;
     axios_get := fun _ => usda;
     supabase_from_insert := fun _ _ => inr None;
     Number_toString := fun _ => "1e+21";
     TypeError_of_undefined := fun p =>
       new_Error ("Cannot read property '" ++ p ++ "' of undefined") |}.

Definition visionAnswers (data : AnnotateImageResponse) : JsError + VisionApiResponse :=
  inr {| responses := [data] |}.

Definition serviceDown : JsError :=
  {| message := "Request failed with status code 503";
     response := Some {| status := 503; data := "unavailable" |} |}.

(** ** Saving a result *)

Import ResultScreen.

(** The rows the handler sent to the [meals] table. *)
Fixpoint insertedRows (t : list Event) : list MealRow :=
  match t with
  | [] => []
  | supabase_insert "meals" rows :: t' => (rows ++ insertedRows t')%list
  | _ :: t' => insertedRows t'
  end.

(** The required members, as the aggregate total and the input name them. *)
Definition requiredMembers : list ((MealTotal -> number) * (NutritionalData -> number)) :=
  [ (total_calories, calories); (total_protein, protein);
    (total_carbs, carbs); (total_fats, fat) ].

(** Every required member of the total [===] the member of the input. *)
Definition total_equals_input (nd : NutritionalData) (t : MealTotal) : Prop :=
  Forall (fun m => strict_eq (fst m t) (snd m nd) = true) requiredMembers.

(** Every required member of the total is the member of the input after
    [|| 0]. *)
Definition total_is_input_or_zero (nd : NutritionalData) (t : MealTotal) : Prop :=
  Forall (fun m => fst m t = or_zero (snd m nd)) requiredMembers.

(** A screen that holds the result [r] of an analysis, a food item with
    its nutritional data [nd], not yet saved. *)
Definition ready (s : Screen) (u : User) (uri : string) (r : FoodAnalysisResult)
           (nd : NutritionalData) : Prop :=
  user s = Some u /\ imageUri s = Some uri /\ JsString.truthy uri = true
  /\ foodData s = Some (ofResult r) /\ isFoodItem r = true
  /\ nutritionalData r = Some nd /\ isSaved s = false.

(** The result of an analysis that found the nutrients [nd]. *)
Definition resultWith (nd : NutritionalData) : FoodAnalysisResult :=
  {| name := "hot dog"; description := "hot dog (95.00%) [label]";
     nutritionalData := Some nd; isFoodItem := true |}.

(** The screen after [setFoodData(r)], for a signed-in user. *)
Definition screenOf (r : FoodAnalysisResult) : Screen :=
  {| user := Some {| id := "user-1" |};
     imageUri := Some "file:///meal.jpg";
     foodData := Some (ofResult r);
     isSaved := false |}.

(** A number as the handler can receive it: the nutrient values are parsed
    from the JSON answer of the nutrition service, and no JSON text denotes
    NaN. *)
Definition parsedNumber (x : number) : bool := negb (is_nan x).

(** Every required member of the input is such a number. *)
Definition requiredParsed (nd : NutritionalData) : Prop :=
  Forall (fun m => parsedNumber (snd m nd) = true) requiredMembers.

(** A required member of the total is the input itself, or it is 0 and the
    input was a zero. *)
Definition kept_or_was_zero (nd : NutritionalData) (t : MealTotal) : Prop :=
  Forall (fun m => fst m t = snd m nd
                   \/ (fst m t = zero /\ strict_eq (snd m nd) zero = true))
         requiredMembers.

(** ** Scores *)

(** The least exponent of binary64. *)
Definition emin64 : Z := emin prec emax.

(** An integer that orders the numbers as their values do: [x * 2^1074]
    for a finite [x], and a bound beyond every finite value for an
    infinity. *)
Definition key (x : number) : Z :=
  match x with
  | S754_zero _ | S754_nan => 0
  | S754_infinity s => cond_Zopp s (2 ^ 2098)
  | S754_finite s m e => cond_Zopp s (Zpos m * 2 ^ (e - emin64))
  end%Z.

(** A binary64 value other than NaN. *)
Definition well_formed (x : number) : bool := andb (valid x) (negb (is_nan x)).

Definition well_scored (a : Annotation) : Prop := well_formed (score a) = true.

(** [a] may precede [b] in descending order of score. *)
Definition scoreDescending (a b : Annotation) : Prop := SFleb (score b) (score a) = true.

(** [a] may precede [b] in descending order of [rank]. *)
Definition descending_by {A} (rank : A -> Z) (a b : A) : Prop := (rank b <= rank a)%Z.

(** A response whose annotations arrive out of order, with one object. *)
Definition scenarioUnsorted : AnnotateImageResponse :=
  {| labelAnnotations := Some [ {| la_description := "fast food"; la_score := decimal 80 2 |};
                                {| la_description := "hot dog"; la_score := decimal 95 2 |} ];
     localizedObjectAnnotations := Some [ {| oa_name := "Hot dog"; oa_score := decimal 88 2 |} ] |}.


(** * The rest of the result screen, and the history screen *)

(** ** [src/screens/ResultScreen.tsx]: the fetch effect and what is shown *)

Module ResultScreenView.

(** The state of the component: what the save handler reads, and the two
    state variables [loading] and [error] of the fetch. *)
Record View := { screen : Screen; loading : bool; error : option string }.

Definition setIsSaved_ (b : bool) (v : View) : View :=
  {| screen := {| user := user (screen v); imageUri := imageUri (screen v);
                  foodData := foodData (screen v); isSaved := b |};
     loading := loading v; error := error v |}.

Definition setLoading (b : bool) (v : View) : View :=
  {| screen := screen v; loading := b; error := error v |}.

Definition setError (e : option string) (v : View) : View :=
  {| screen := screen v; loading := loading v; error := e |}.

Definition setFoodData (fd : FoodDataState) (v : View) : View :=
  {| screen := {| user := user (screen v); imageUri := imageUri (screen v);
                  foodData := Some fd; isSaved := isSaved (screen v) |};
     loading := loading v; error := error v |}.

(** Line 87: the value the [catch] falls back to. *)
Definition analysisFailed : FoodDataState :=
  {| fd_name := "Unknown Food"; fd_text := "Analysis failed.";
     fd_nutritionalData := None; fd_isFoodItem := None |}.

(** Lines 57-94: the effect that runs when [imageUri] changes.  The state
    it leaves and the events it performs; the animation it starts touches
    no state variable. *)
Definition fetchFoodData (w : World) (v : View) : View * list Event :=
  let v := setIsSaved_ false v in
  match imageUri (screen v) with
  | None => (v, [])
  | Some uri =>
      if negb (JsString.truthy uri) then (v, [])
      else
        let v := setError None (setLoading true v) in
        match analyzeFoodImage w uri with
        | (t, inr result) => (setLoading false (setFoodData (ofResult result) v), t)
        | (t, inl err) =>
            (setLoading false
               (setFoodData analysisFailed
                  (setError (Some "Failed to analyze image. Please try again or enter details manually.")
                            v)),
             (t ++ [console_error "Error fetching food data:" (LogError err)])%list)
        end
  end.

(** React applies the state setters a handler called: the screen after the
    events of [handleSaveToHistory]. *)
Fixpoint afterEvents (s : Screen) (t : list Event) : Screen :=
  match t with
  | [] => s
  | setIsSaved b :: t' =>
      afterEvents {| user := user s; imageUri := imageUri s;
                     foodData := foodData s; isSaved := b |} t'
  | _ :: t' => afterEvents s t'
  end.

(** The parts of the screen that lines 163-338 can show. *)
Inductive Part :=
| NoImageSelected
| Loader
| ErrorBanner (text : string)
| NotFoodNotice
| ResultCard (name : string)
| SaveButton (disabled : bool).

(** Lines 163-338: which parts are rendered. *)
Definition render (v : View) : list Part :=
  let s := screen v in
  if negb (match imageUri s with Some uri => JsString.truthy uri | None => false end)
  then [NoImageSelected]
  else
    ((if loading v then [Loader] else [])
     ++ (match error v with
         | Some text => if JsString.truthy text then [ErrorBanner text] else []
         | None => []
         end)
     ++ (match foodData s with
         | Some fd =>
             if loading v then []
             else
               let isFood := is_true (fd_isFoodItem fd) in
               let hasData := match fd_nutritionalData fd with Some _ => true | None => false end in
               ((if orb (negb isFood) (negb hasData) then [NotFoodNotice] else [])
                ++ (if andb isFood hasData
                    then [ResultCard (fd_name fd); SaveButton (isSaved s)]
                    else []))%list
         | None => []
         end))%list.

(** Lines 276-325: the rows of the nutrition facts, as (label, value, unit). *)
Definition nutritionRows (nd : NutritionalData) : list (string * number * string) :=
  ([ ("Calories", calories nd, "kcal");
     ("Protein", protein nd, "g");
     ("Carbohydrates", carbs nd, "g");
     ("Fats", fat nd, "g") ]
   ++ (match fiber nd with Some x => [("Fiber", x, "g")] | None => [] end)
   ++ (match sugar nd with Some x => [("Sugar", x, "g")] | None => [] end)
   ++ (match sodium nd with Some x => [("Sodium", x, "mg")] | None => [] end))%list.

End ResultScreenView.

(** ** [src/screens/HistoryScreen.tsx]: loading the meals *)

Module HistoryScreen.

(** A row of the [meals] table as the screen reads it. *)
Record StoredMeal := {
  sm_id : string;
  sm_user_id : string;
  sm_image_url : option string;
  sm_analysis_data : option AnalysisData;
  sm_created_at : string }.

(** What the awaited query resolves to: [{ data, error }]. *)
Record SelectResult := { sel_data : option (list StoredMeal); sel_error : option JsError }.

(** The query [from(table).select('*').eq(column, value).order(by, { ascending })]. *)
Record Select := {
  q_table : string; q_columns : string;
  q_eq_column : string; q_eq_value : string;
  q_order_by : string; q_ascending : bool }.

(** The record store: a query throws or resolves. *)
Definition Store := Select -> JsError + SelectResult.

Inductive HistoryEvent :=
| store_select (q : Select)
| history_error (line : string) (e : JsError).

(** The state variables [meals], [loading] and [refreshing]. *)
Record History := { meals : list StoredMeal; h_loading : bool; refreshing : bool }.

Definition setMeals (l : list StoredMeal) (h : History) : History :=
  {| meals := l; h_loading := h_loading h; refreshing := refreshing h |}.

Definition setLoading (b : bool) (h : History) : History :=
  {| meals := meals h; h_loading := b; refreshing := refreshing h |}.

Definition setRefreshing (b : bool) (h : History) : History :=
  {| meals := meals h; h_loading := h_loading h; refreshing := b |}.

(** Lines 137-140: the query for one user's meals. *)
Definition mealsOf (u : ResultScreen.User) : Select :=
  {| q_table := "meals"; q_columns := "*";
     q_eq_column := "user_id"; q_eq_value := ResultScreen.id u;
     q_order_by := "created_at"; q_ascending := false |}.

(** Lines 127-153. *)
Definition fetchMeals (user : option ResultScreen.User) (store : Store) (h : History)
  : History * list HistoryEvent :=
  match user with
  | None => (setLoading false h, [])
  | Some u =>
      let finally_ (h : History) := setRefreshing false (setLoading false h) in
      let h := setLoading true h in
      match store (mealsOf u) with
      | inr r =>
          match sel_error r with
          | Some e =>
              (finally_ h,
               [store_select (mealsOf u);
                history_error "Error fetching meals from Supabase:" e])
          | None =>
              (finally_ (setMeals (match sel_data r with Some l => l | None => [] end) h),
               [store_select (mealsOf u)])
          end
      | inl err =>
          (finally_ h,
           [store_select (mealsOf u); history_error "Unexpected error fetching meals:" err])
      end
  end.

(** Lines 165-168. *)
Definition onRefresh (user : option ResultScreen.User) (store : Store) (h : History)
  : History * list HistoryEvent :=
  fetchMeals user store (setRefreshing true h).

(** Line 325: the full-screen loading indicator is shown. *)
Definition showsLoading (h : History) : bool := andb (h_loading h) (negb (refreshing h)).

End HistoryScreen.

(** ** Vocabulary of the further properties *)

(** The line the second branch of the selection logs. *)
Definition genericFallbackLine (text : string) : Event :=
  console_log ("No specific food name found, using display name for USDA API: " ++ text)
              LogNothing.

(** The awaited calls to the outside, and writes to the record store. *)
Definition isExternalCall (ev : Event) : bool :=
  match ev with
  | fs_read _ | http_post _ _ | http_get _ | supabase_insert _ _ => true
  | _ => false
  end.

Definition externalCalls (t : list Event) : list Event := filter isExternalCall t.

Definition isHttpGet (ev : Event) : bool :=
  match ev with http_get _ => true | _ => false end.

(** The two messages [analyzeFoodImage] can throw. *)
Definition accessDenied : JsError :=
  new_Error "Google Cloud Vision API access denied (403). Please check if your API key is valid and the API is enabled for your project.".

Definition analysisFailure (cause : string) : JsError :=
  new_Error ("Failed to analyze food image. Please try again. Error: " ++ cause).

Definition forbidden : JsError :=
  {| message := "Request failed with status code 403";
     response := Some {| status := 403; data := "PERMISSION_DENIED" |} |}.

(** A world with no key configured. *)
Definition unconfiguredWorld : World :=
  {| GOOGLE_API_KEY := None;
     USDA_API_KEY := None;
     readAsStringAsync := fun _ => inr "aW1hZ2U=";
     axios_post := fun _ _ => visionAnswers scenarioA;
     axios_get := fun _ => inr {| foods := [hotDogRecord] |};
     supabase_from_insert := fun _ _ => inr None;
     Number_toString := fun _ => "1e+21";
     TypeError_of_undefined := fun p =>
       new_Error ("Cannot read property '" ++ p ++ "' of undefined") |}.

(** The vision key is configured, the nutrition key is not. *)
Definition visionOnlyWorld : World :=
  {| GOOGLE_API_KEY := Some "vision-key";
     USDA_API_KEY := Some "";
     readAsStringAsync := fun _ => inr "aW1hZ2U=";
     axios_post := fun _ _ => visionAnswers scenarioA;
     axios_get := fun _ => inr {| foods := [hotDogRecord] |};
     supabase_from_insert := fun _ _ => inr None;
     Number_toString := fun _ => "1e+21";
     TypeError_of_undefined := fun p =>
       new_Error ("Cannot read property '" ++ p ++ "' of undefined") |}.

Definition Category_eqb (c d : Category) : bool :=
  match c, d with
  | Calories, Calories | Protein, Protein | Carbs, Carbs | Fat, Fat
  | Fiber, Fiber | Sugar, Sugar | Sodium, Sodium => true
  | _, _ => false
  end.

(** The nutrient's category is [c]. *)
Definition hasCategory (c : Category) (n : Nutrient) : bool :=
  match categoryOf n with
  | Some d => Category_eqb d c
  | None => false
  end.

(** A label and an object with the same score, below a second label. *)
Definition scenarioTie : AnnotateImageResponse :=
  {| labelAnnotations := Some [ {| la_description := "Bun"; la_score := decimal 9 1 |};
                                {| la_description := "Sausage"; la_score := decimal 95 2 |} ];
     localizedObjectAnnotations := Some [ {| oa_name := "Hot dog"; oa_score := decimal 9 1 |} ] |}.

(** ** The save handler and the screens *)

Import ResultScreenView.

(** The conditions under which lines 97-111 let the handler through. *)
Definition savable (s : Screen) : bool :=
  match user s, imageUri s, foodData s with
  | Some _, Some uri, Some fd =>
      andb (JsString.truthy uri)
     (andb (is_true (fd_isFoodItem fd))
     (andb (match fd_nutritionalData fd with Some _ => true | None => false end)
           (negb (isSaved s))))
  | _, _, _ => false
  end.

(** The rows the handler builds from the screen. *)
Definition rowsOf (s : Screen) : list MealRow :=
  match user s, imageUri s, foodData s with
  | Some u, Some uri, Some fd =>
      [ {| user_id := id u; image_url := uri; analysis_data := analysisDataOf fd |} ]
  | _, _, _ => []
  end.

Definition refusedIncomplete : list Event :=
  [ Alert_alert "Info" "Data incomplete. Cannot save to history." ].

Definition refusedNotFood : list Event :=
  [ Alert_alert "Error"
      "This does not appear to be a recognizable food item. Cannot save to history." ].

Definition refusedAlreadySaved : list Event :=
  [ Alert_alert "Info" "Meal already saved to history."; navigation_navigate "History" ].

(** A signed-in user looking at a new image. *)
Definition freshView (uri : string) : View :=
  {| screen := {| user := Some {| id := "user-1" |}; imageUri := Some uri;
                  foodData := None; isSaved := true |};
     loading := false; error := None |}.

(** A record store that rejects every insert. *)
Definition rejectingWorld : World :=
  {| GOOGLE_API_KEY := Some "vision-key";
     USDA_API_KEY := Some "usda-key";
     readAsStringAsync := fun _ => inr "aW1hZ2U=";
     axios_post := fun _ _ => visionAnswers scenarioA;
     axios_get := fun _ => inr {| foods := [hotDogRecord] |};
     supabase_from_insert := fun _ _ => inr (Some (new_Error "permission denied for table meals"));
     Number_toString := fun _ => "1e+21";
     TypeError_of_undefined := fun p =>
       new_Error ("Cannot read property '" ++ p ++ "' of undefined") |}.

(** ** Percentages *)

(** A well-formed number between 0 and 1. *)
Definition inUnitInterval (x : number) : bool :=
  andb (well_formed x) (andb (SFleb zero x) (SFleb x (of_Z 1))).

(** The same world on an engine that prints large numbers differently. *)
Definition otherEngine (w : World) : World :=
  {| GOOGLE_API_KEY := GOOGLE_API_KEY w;
     USDA_API_KEY := USDA_API_KEY w;
     readAsStringAsync := readAsStringAsync w;
     axios_post := axios_post w;
     axios_get := axios_get w;
     supabase_from_insert := supabase_from_insert w;
     Number_toString := fun _ => "1e21";
     TypeError_of_undefined := TypeError_of_undefined w |}.

(** * Properties *)

(** ** Lists: the first element with a property *)

Section FirstSuch.
Variable A : Type.
Variable P : A -> bool.

Lemma find_first_such l a : find_ P l = Some a -> first_such P l a.
Proof.
  unfold find_. induction l as [|x l IH]; simpl; [discriminate|].
  destruct (P x) eqn:Px; intros H.
  - injection H as <-. exists [], l. simpl. auto.
  - destruct (IH H) as (pre & post & -> & Hpre & Pa).
    exists (x :: pre), post. simpl. rewrite Px. auto.
Qed.

Lemma find_none_such l : find_ P l = None -> none_such P l.
Proof.
  unfold find_, none_such. induction l as [|x l IH]; simpl; [reflexivity|].
  destruct (P x); [discriminate|]. exact IH.
Qed.

Lemma first_such_unique l a b : first_such P l a -> first_such P l b -> a = b.
Proof.
  revert a b. induction l as [|x l IH]; intros a b (p1 & q1 & E1 & N1 & Pa) (p2 & q2 & E2 & N2 & Pb).
  - destruct p1; discriminate.
  - destruct p1 as [|y p1], p2 as [|z p2]; simpl in *.
    + congruence.
    + injection E1 as <- _. injection E2 as <- _.
      rewrite Pa in N2. discriminate.
    + injection E1 as <- _. injection E2 as <- _.
      rewrite Pb in N1. discriminate.
    + injection E1 as _ E1. injection E2 as _ E2.
      apply andb_prop in N1 as [_ N1]. apply andb_prop in N2 as [_ N2].
      apply IH; [exists p1, q1 | exists p2, q2]; auto.
Qed.

Lemma none_such_not_first l a : none_such P l -> first_such P l a -> False.
Proof.
  unfold none_such. intros N (pre & post & -> & _ & Pa).
  rewrite forallb_app in N. apply andb_prop in N as [_ N].
  simpl in N. rewrite Pa in N. discriminate.
Qed.
End FirstSuch.

(** ** The relevance filter *)

Lemma isFoodRelated_truthy d : isFoodRelated d = true -> JsString.truthy d = true.
Proof. destruct d; [vm_compute; discriminate | reflexivity]. Qed.

Lemma or_else_food d : isFoodRelated d = true -> JsString.or_else d Unknown_Food = d.
Proof. intros H. unfold JsString.or_else. now rewrite (isFoodRelated_truthy d H). Qed.

Lemma specific_is_food l a : none_such foodRelated l -> first_such specificFood l a -> False.
Proof.
  intros N (pre & post & -> & _ & Px). unfold none_such in N.
  rewrite forallb_app in N. apply andb_prop in N as [_ N]. simpl in N.
  unfold specificFood in Px. apply andb_prop in Px as [Px _].
  unfold foodRelated in N. rewrite Px in N. discriminate.
Qed.

(** The priority order designates at most one annotation. *)
Lemma priority_choice_unique l a b : priority_choice l a -> priority_choice l b -> a = b.
Proof.
  intros [Ha | [[Na Ha] | [Na Ha]]] [Hb | [[Nb Hb] | [Nb Hb]]].
  - exact (first_such_unique Ha Hb).
  - destruct (none_such_not_first Nb Ha).
  - destruct (specific_is_food Nb Ha).
  - destruct (none_such_not_first Na Hb).
  - exact (first_such_unique Ha Hb).
  - destruct (none_such_not_first Nb Ha).
  - destruct (specific_is_food Na Hb).
  - destruct (none_such_not_first Na Hb).
  - congruence.
Qed.

Lemma selectNames_outcome l :
  outcome (selectNames l) =
  inr match find_ specificFood l with
      | Some s => (a_description s, JsString.or_else (a_description s) Unknown_Food)
      | None =>
          match find_ foodRelated l with
          | Some b => (a_description b, JsString.or_else (a_description b) Unknown_Food)
          | None =>
              match l with
              | top :: _ => (a_description top, JsString.or_else (a_description top) Unknown_Food)
              | [] => (Unknown_Food, Unknown_Food)
              end
          end
      end.
Proof.
  unfold selectNames.
  change (find_ (fun a => andb (isFoodRelated (a_description a))
                               (negb (isGenericCategory (a_description a)))) l)
    with (find_ specificFood l).
  change (find_ (fun a => isFoodRelated (a_description a)) l) with (find_ foodRelated l).
  destruct (find_ specificFood l); [reflexivity|].
  destruct (find_ foodRelated l); [reflexivity|].
  destruct l; reflexivity.
Qed.

(** C1 (as amended).  The selection never fails and follows the priority
    order: the first annotation that is food-related and not a generic
    category gives both the query and the display name; else the first
    food-related annotation gives both; else the first (top-scoring)
    annotation gives the query, and the display name too unless its text
    is empty, in which case the display name is "Unknown Food"; and on the
    empty sequence both are "Unknown Food" and no lookup is attempted. *)
Theorem relevance_filter_priority (w : World) (l : list Annotation) :
  exists q nm,
    outcome (selectNames l) = inr (q, nm)
    /\ ((exists a, first_such specificFood l a
                   /\ q = a_description a /\ nm = a_description a)
        \/ (exists a, none_such specificFood l /\ first_such foodRelated l a
                      /\ q = a_description a /\ nm = a_description a)
        \/ (exists top, none_such foodRelated l /\ hd_error l = Some top
                        /\ q = a_description top
                        /\ nm = if JsString.truthy (a_description top)
                                then a_description top else Unknown_Food)
        \/ (l = [] /\ q = Unknown_Food /\ nm = Unknown_Food
            /\ lookupNutrition w q = ret (None, false))).
Proof.
  rewrite selectNames_outcome.
  destruct (find_ specificFood l) as [s|] eqn:Fs.
  - do 2 eexists. split; [reflexivity|]. left. exists s.
    pose proof (find_first_such _ _ Fs) as H. split; [exact H|]. split; [reflexivity|].
    destruct H as (_ & _ & _ & _ & Ps). apply andb_prop in Ps as [Ps _].
    now apply or_else_food.
  - apply find_none_such in Fs.
    destruct (find_ foodRelated l) as [b|] eqn:Fb.
    + do 2 eexists. split; [reflexivity|]. right; left. exists b.
      pose proof (find_first_such _ _ Fb) as H. repeat split; try assumption.
      destruct H as (_ & _ & _ & _ & Pb). now apply or_else_food.
    + apply find_none_such in Fb. destruct l as [|top rest].
      * do 2 eexists. split; [reflexivity|]. right; right; right. auto.
      * do 2 eexists. split; [reflexivity|]. right; right; left. exists top.
        repeat split; assumption.
Qed.

(** C1, as stated, fails on a sequence whose top annotation has an empty
    text: the query is the empty text, the display name "Unknown Food". *)
Lemma relevance_filter_empty_text_counterexample :
  emptyTextSequence <> []
  /\ outcome (selectNames emptyTextSequence) = inr ("", "Unknown Food")
  /\ ~ selects_text_for_both emptyTextSequence.
Proof.
  split; [discriminate|]. split; [reflexivity|].
  intros (a & _ & H). vm_compute in H.
  injection H as Hq Hn. rewrite <- Hq in Hn. discriminate.
Qed.

(** C6.  On the annotations "hot dog" (0.95) and "fast food" (0.80) the
    sorted sequence keeps that order and the filter selects "hot dog" as
    both the query and the display name. *)
Theorem scenario_A_selects_hot_dog :
  allAnnotationsOf scenarioA
    = [ label "hot dog" (decimal 95 2); label "fast food" (decimal 80 2) ]
  /\ outcome (selectNames (allAnnotationsOf scenarioA)) = inr ("hot dog", "hot dog").
Proof. split; vm_compute; reflexivity. Qed.

(** ** Nutrient extraction *)

(** One step of the loop sets the member of the nutrient's category and
    leaves every other member as it was. *)
Lemma updateNutrient_categoryOf nd n :
  match categoryOf n with
  | Some c => field c (updateNutrient nd n) = Some (value n)
              /\ forall c', c' = c \/ field c' (updateNutrient nd n) = field c' nd
  | None => updateNutrient nd n = nd
  end.
Proof.
  unfold categoryOf, updateNutrient, chainOrder, List.find, mentions.
  repeat match goal with
         | |- context [if ?b then _ else _] =>
             destruct b; [split; [reflexivity | intros []; auto] |]
         end.
  reflexivity.
Qed.

Lemma updateNutrient_same nd n c :
  categoryOf n = Some c -> field c (updateNutrient nd n) = Some (value n).
Proof.
  intros H. pose proof (updateNutrient_categoryOf nd n) as U.
  rewrite H in U. apply U.
Qed.

Lemma updateNutrient_other nd n c :
  categoryOf n <> Some c -> field c (updateNutrient nd n) = field c nd.
Proof.
  intros H. pose proof (updateNutrient_categoryOf nd n) as U.
  destruct (categoryOf n) as [d|].
  - destruct U as [_ U]. destruct (U c) as [-> | E]; [congruence | exact E].
  - now rewrite U.
Qed.

Lemma fold_updateNutrient_other l : forall nd c,
  Forall (fun n => categoryOf n <> Some c) l ->
  field c (fold_left updateNutrient l nd) = field c nd.
Proof.
  induction l as [|n l IH]; intros nd c H; simpl; [reflexivity|].
  inversion H; subst. rewrite IH by assumption. now apply updateNutrient_other.
Qed.

(** C3.  When several nutrients of the list have the same category, the
    last of them in list order gives the member its value: a nutrient of
    category [c] followed by no other nutrient of that category sets the
    member for [c], whatever precedes it. *)
Theorem last_matching_nutrient_wins (pre post : list Nutrient) (n : Nutrient) (c : Category) :
  categoryOf n = Some c ->
  Forall (fun m => categoryOf m <> Some c) post ->
  field c (extractNutrients (pre ++ n :: post)) = Some (value n).
Proof.
  intros Hn Hpost. unfold extractNutrients.
  rewrite fold_left_app. simpl.
  rewrite fold_updateNutrient_other by assumption.
  now apply updateNutrient_same.
Qed.

(** Scenario D: two sodium entries, 100 then 120, give sodium 120. *)
Lemma last_matching_nutrient_wins_witness :
  sodium (extractNutrients [nutrient "Sodium, Na" 100; nutrient "Sodium, Na" 120])
  = Some (of_Z 120).
Proof.
  apply (@last_matching_nutrient_wins [nutrient "Sodium, Na" 100] []
           (nutrient "Sodium, Na" 120) Sodium).
  - reflexivity.
  - constructor.
Defined.

(** C5 (as amended).  A member that no nutrient of the list has as its
    category keeps its initial state after extraction: 0 for the required
    members calories, protein, carbs and fat, and undefined for the
    optional members fiber, sugar and sodium. *)
Theorem unmatched_field_default (l : list Nutrient) (c : Category) :
  Forall (fun n => categoryOf n <> Some c) l ->
  field c (extractNutrients l) = if required c then Some zero else None.
Proof.
  intros H. unfold extractNutrients.
  rewrite fold_updateNutrient_other by assumption.
  destruct c; reflexivity.
Qed.

Lemma unmatched_field_default_witness :
  field Calories (extractNutrients [nutrient "Protein" 10]) = Some zero
  /\ field Fiber (extractNutrients [nutrient "Protein" 10]) = None.
Proof.
  split.
  - apply (@unmatched_field_default [nutrient "Protein" 10] Calories).
    constructor; [vm_compute; discriminate | constructor].
  - apply (@unmatched_field_default [nutrient "Protein" 10] Fiber).
    constructor; [vm_compute; discriminate | constructor].
Defined.

(** C5, as stated, fails: on the empty nutrient list no nutrient matches
    fiber, and the extracted fiber is undefined, not 0. *)
Lemma optional_field_default_counterexample :
  field Fiber (extractNutrients []) = None
  /\ ~ every_field_defaults_to_zero [].
Proof.
  split; [reflexivity|].
  intros H. specialize (H Fiber (Forall_nil _)). discriminate.
Qed.

(** ** The effect monad *)

Lemma outcome_bind {A B} (m : M A) (f : A -> M B) :
  outcome (bind m f) = match outcome m with
                       | inl e => inl e
                       | inr a => outcome (f a)
                       end.
Proof. destruct m as [t [e|a]]; simpl; [reflexivity|]. now destruct (f a). Qed.

Lemma trace_bind {A B} (m : M A) (f : A -> M B) :
  trace (bind m f) = (trace m ++ match outcome m with
                                 | inl _ => []
                                 | inr a => trace (f a)
                                 end)%list.
Proof.
  destruct m as [t [e|a]]; simpl; [now rewrite app_nil_r|]. now destruct (f a).
Qed.

Lemma outcome_try_catch {A} (m : M A) (h : JsError -> M A) :
  outcome (try_catch m h) = match outcome m with
                            | inl e => outcome (h e)
                            | inr a => inr a
                            end.
Proof. destruct m as [t [e|a]]; simpl; [|reflexivity]. now destruct (h e). Qed.

Lemma trace_try_catch {A} (m : M A) (h : JsError -> M A) :
  trace (try_catch m h) = (trace m ++ match outcome m with
                                      | inl e => trace (h e)
                                      | inr _ => []
                                      end)%list.
Proof.
  destruct m as [t [e|a]]; simpl; [|now rewrite app_nil_r]. now destruct (h e).
Qed.

(** ** The nutrition lookup *)

Lemma fetchNutritionalData_body_outcome w foodName :
  outcome (fetchNutritionalData_body w foodName) =
  if negb (key_set (USDA_API_KEY w))
  then inl (new_Error "USDA API key is not set. Please configure it in your .env and app.json.")
  else match axios_get w (searchUrl w foodName) with
       | inl e => inl e
       | inr searchResponse =>
           match foods searchResponse with
           | [] => inl (new_Error ("No matching food found for " ++ foodName))
           | foodData :: _ => inr (extractNutrients (foodNutrients foodData))
           end
       end.
Proof.
  unfold fetchNutritionalData_body.
  rewrite outcome_bind. simpl outcome at 1. cbv iota.
  rewrite outcome_bind.
  destruct (negb (key_set (USDA_API_KEY w))); [reflexivity|].
  simpl outcome at 1. cbv iota.
  rewrite outcome_bind. unfold await at 1. simpl outcome at 1.
  destruct (axios_get w (searchUrl w foodName)) as [e|r]; [reflexivity|].
  rewrite outcome_bind. simpl outcome at 1. cbv iota.
  destruct (foods r); reflexivity.
Qed.

Lemma fetchNutritionalData_outcome w foodName :
  outcome (fetchNutritionalData w foodName) =
  match outcome (fetchNutritionalData_body w foodName) with
  | inl _ => inl (new_Error ("Failed to fetch nutritional data for " ++ foodName))
  | inr nd => inr nd
  end.
Proof.
  unfold fetchNutritionalData. rewrite outcome_try_catch.
  destruct (outcome (fetchNutritionalData_body w foodName)); reflexivity.
Qed.

Lemma fetchNutritionalData_body_trace w foodName :
  exists rest, trace (fetchNutritionalData_body w foodName)
               = console_log "Using USDA_API_KEY:" (LogKey (USDA_API_KEY w)) :: rest.
Proof.
  unfold fetchNutritionalData_body. rewrite trace_bind. simpl trace at 1.
  eexists. reflexivity.
Qed.

Lemma fetchNutritionalData_attempted w foodName :
  lookup_attempted w (trace (fetchNutritionalData w foodName)).
Proof.
  unfold lookup_attempted, fetchNutritionalData. rewrite trace_try_catch.
  destruct (fetchNutritionalData_body_trace w foodName) as [rest ->].
  left. reflexivity.
Qed.

Lemma lookupNutrition_outcome w q :
  outcome (lookupNutrition w q) =
  inr (if String.eqb q Unknown_Food then (None, false)
       else (match outcome (fetchNutritionalData w q) with
             | inr nd => Some nd
             | inl _ => None
             end, true)).
Proof.
  unfold lookupNutrition. destruct (String.eqb q Unknown_Food); [reflexivity|].
  simpl negb. cbv iota. rewrite outcome_bind, outcome_try_catch, outcome_bind.
  destruct (outcome (fetchNutritionalData w q)); reflexivity.
Qed.

Lemma lookupNutrition_trace w q :
  trace (lookupNutrition w q) =
  if String.eqb q Unknown_Food then []
  else (trace (fetchNutritionalData w q)
        ++ match outcome (fetchNutritionalData w q) with
           | inl e => [console_error "Error fetching nutritional data from USDA API:"
                                     (LogError e)]
           | inr _ => []
           end)%list.
Proof.
  unfold lookupNutrition. destruct (String.eqb q Unknown_Food); [reflexivity|].
  simpl negb. cbv iota. rewrite trace_bind, trace_try_catch, trace_bind, outcome_try_catch, outcome_bind.
  destruct (outcome (fetchNutritionalData w q)); simpl; rewrite ?app_nil_r; reflexivity.
Qed.

(** ** The orchestrator *)

Lemma classify_outcome w imageUri :
  outcome (classify w imageUri) =
  if negb (key_set (GOOGLE_API_KEY w))
  then inl (new_Error
    "Google Cloud Vision API key is not set. Please configure it in your .env and app.json.")
  else match readAsStringAsync w imageUri with
       | inl e => inl e
       | inr base64Image =>
           match axios_post w (visionUrl w) (visionRequest base64Image) with
           | inl e => inl e
           | inr response =>
               match responses response with
               | data :: _ => inr data
               | [] => inl (TypeError_of_undefined w "labelAnnotations")
               end
           end
       end.
Proof.
  unfold classify.
  rewrite outcome_bind. simpl outcome at 1. cbv iota.
  rewrite outcome_bind.
  destruct (negb (key_set (GOOGLE_API_KEY w))); [reflexivity|].
  simpl outcome at 1. cbv iota.
  rewrite outcome_bind. unfold await at 1. simpl outcome at 1.
  destruct (readAsStringAsync w imageUri) as [e|b]; [reflexivity|].
  rewrite outcome_bind. unfold await at 1. simpl outcome at 1.
  destruct (axios_post w (visionUrl w) (visionRequest b)) as [e|r]; [reflexivity|].
  rewrite outcome_bind. simpl outcome at 1. cbv iota.
  destruct (responses r); reflexivity.
Qed.

(** No event of the classifier stage is the line of the nutrition lookup. *)
Lemma classify_not_attempted w imageUri :
  ~ lookup_attempted w (trace (classify w imageUri)).
Proof.
  unfold lookup_attempted, classify.
  rewrite trace_bind. simpl trace at 1. simpl outcome at 1. cbv iota.
  rewrite trace_bind.
  destruct (negb (key_set (GOOGLE_API_KEY w))).
  { simpl. intros [H|[]]. discriminate. }
  simpl trace at 1. simpl outcome at 1. cbv iota.
  rewrite trace_bind. unfold await at 1. simpl trace at 1. simpl outcome at 1.
  destruct (readAsStringAsync w imageUri) as [e|b].
  { simpl. intros [H|[H|[]]]; discriminate. }
  rewrite trace_bind. unfold await at 1. simpl trace at 1. simpl outcome at 1.
  destruct (axios_post w (visionUrl w) (visionRequest b)) as [e|r].
  { simpl. intros [H|[H|[H|[]]]]; discriminate. }
  rewrite trace_bind. simpl trace at 1. simpl outcome at 1. cbv iota.
  destruct (responses r); simpl; intros [H|[H|[H|[H|[]]]]]; discriminate.
Qed.

Lemma selectNames_not_attempted w l : ~ lookup_attempted w (trace (selectNames l)).
Proof.
  unfold lookup_attempted, selectNames.
  destruct (find_ _ l); [simpl; intros [H|[]]; discriminate|].
  destruct (find_ _ l); [simpl; intros [H|[]]; discriminate|].
  destruct l; simpl; [tauto | intros [H|[]]; discriminate].
Qed.

Lemma selected_pair data :
  outcome (selectNames (allAnnotationsOf data)) = inr (selectedQuery data, selectedName data).
Proof.
  unfold selectedQuery, selectedName. rewrite selectNames_outcome.
  match goal with |- inr ?p = _ => destruct p as [q nm] end. reflexivity.
Qed.

Lemma assemble_outcome w data : outcome (assemble w data) = inr (assembled w data).
Proof.
  unfold assemble. rewrite outcome_bind, selected_pair, outcome_bind, lookupNutrition_outcome.
  unfold assembled. destruct (String.eqb (selectedQuery data) Unknown_Food); reflexivity.
Qed.

Lemma assemble_trace w data :
  trace (assemble w data)
  = (trace (selectNames (allAnnotationsOf data))
     ++ trace (lookupNutrition w (selectedQuery data)))%list.
Proof.
  unfold assemble. rewrite trace_bind, selected_pair, trace_bind, lookupNutrition_outcome.
  destruct (String.eqb (selectedQuery data) Unknown_Food); simpl; now rewrite app_nil_r.
Qed.

Lemma analyzeFoodImage_catch_outcome e :
  outcome (analyzeFoodImage_catch e) =
  inl (if match response e with Some r => Z.eqb (status r) 403 | None => false end
       then new_Error
         "Google Cloud Vision API access denied (403). Please check if your API key is valid and the API is enabled for your project."
       else new_Error ("Failed to analyze food image. Please try again. Error: "
                       ++ JsString.or_else (message e) "Unknown error")).
Proof.
  unfold analyzeFoodImage_catch. rewrite !outcome_bind. simpl outcome at 1. cbv iota.
  destruct (response e) as [r|]; simpl outcome at 1; cbv iota.
  - destruct (Z.eqb (status r) 403); reflexivity.
  - reflexivity.
Qed.

Lemma analyzeFoodImage_outcome w imageUri :
  outcome (analyzeFoodImage w imageUri) =
  match outcome (classify w imageUri) with
  | inl e => outcome (analyzeFoodImage_catch e)
  | inr data => inr (assembled w data)
  end.
Proof.
  unfold analyzeFoodImage, analyzeFoodImage_body.
  rewrite outcome_try_catch, outcome_bind.
  destruct (outcome (classify w imageUri)) as [e|data]; [reflexivity|].
  now rewrite assemble_outcome.
Qed.

Lemma analyzeFoodImage_trace w imageUri data :
  outcome (classify w imageUri) = inr data ->
  trace (analyzeFoodImage w imageUri)
  = (trace (classify w imageUri) ++ trace (selectNames (allAnnotationsOf data))
     ++ trace (lookupNutrition w (selectedQuery data)))%list.
Proof.
  intros H. unfold analyzeFoodImage, analyzeFoodImage_body.
  rewrite trace_try_catch, outcome_bind, trace_bind, H, assemble_outcome, assemble_trace.
  now rewrite app_nil_r.
Qed.

Lemma lookupNutrition_attempted w q :
  lookup_attempted w (trace (lookupNutrition w q)) <-> q <> Unknown_Food.
Proof.
  rewrite lookupNutrition_trace. destruct (String.eqb_spec q Unknown_Food) as [E|N].
  - split; [intros [] | congruence].
  - split; [intros _; exact N|]. intros _. unfold lookup_attempted.
    apply in_or_app. left. apply fetchNutritionalData_attempted.
Qed.

(** C2.  In every result the orchestrator returns, [isFoodItem] is true
    exactly when the selected query is not "Unknown Food", which is exactly
    when the nutrition lookup was called, whether or not it succeeded; and
    [nutritionalData] is present exactly when the lookup was called and
    succeeded, in which case it is the lookup's result. *)
Theorem isFoodItem_iff_lookup_attempted (w : World) (imageUri : string) (r : FoodAnalysisResult) :
  outcome (analyzeFoodImage w imageUri) = inr r ->
  exists data,
    outcome (classify w imageUri) = inr data
    /\ (isFoodItem r = true <-> selectedQuery data <> Unknown_Food)
    /\ (isFoodItem r = true <-> lookup_attempted w (trace (analyzeFoodImage w imageUri)))
    /\ (forall nd, nutritionalData r = Some nd
                   <-> selectedQuery data <> Unknown_Food
                       /\ outcome (fetchNutritionalData w (selectedQuery data)) = inr nd).
Proof.
  rewrite analyzeFoodImage_outcome.
  destruct (outcome (classify w imageUri)) as [e|data] eqn:C.
  { rewrite analyzeFoodImage_catch_outcome. discriminate. }
  intros H. injection H as <-. exists data. split; [reflexivity|].
  assert (Q : isFoodItem (assembled w data) = true <-> selectedQuery data <> Unknown_Food).
  { simpl. destruct (String.eqb_spec (selectedQuery data) Unknown_Food); simpl;
      split; congruence. }
  split; [exact Q|]. split.
  - rewrite Q, (analyzeFoodImage_trace _ _ C). unfold lookup_attempted.
    rewrite !in_app_iff. split.
    + intros N. right; right. now apply lookupNutrition_attempted.
    + intros [H|[H|H]].
      * destruct (@classify_not_attempted _ _ H).
      * destruct (@selectNames_not_attempted _ _ H).
      * now apply lookupNutrition_attempted in H.
  - intros nd. simpl.
    destruct (String.eqb_spec (selectedQuery data) Unknown_Food) as [E|N].
    + split; [discriminate | intros [N _]; congruence].
    + destruct (outcome (fetchNutritionalData w (selectedQuery data))) as [e|nd'].
      * split; [discriminate | intros [_ H]; discriminate].
      * split; [intros H; injection H as <-; auto | intros [_ H]; congruence].
Qed.

Lemma isFoodItem_iff_lookup_attempted_witness :
  let w := scenarioWorld (visionAnswers scenarioA) (inr {| foods := [hotDogRecord] |}) in
  exists data,
    outcome (classify w "file:///meal.jpg") = inr data
    /\ (isFoodItem (assembled w scenarioA) = true <-> selectedQuery data <> Unknown_Food)
    /\ (isFoodItem (assembled w scenarioA) = true
        <-> lookup_attempted w (trace (analyzeFoodImage w "file:///meal.jpg")))
    /\ (forall nd, nutritionalData (assembled w scenarioA) = Some nd
                   <-> selectedQuery data <> Unknown_Food
                       /\ outcome (fetchNutritionalData w (selectedQuery data)) = inr nd).
Proof.
  intros w.
  apply (@isFoodItem_iff_lookup_attempted w "file:///meal.jpg" (assembled w scenarioA)).
  vm_compute. reflexivity.
Defined.

(** C4.  A failure of the classifier stage, in particular a rejected
    request to the vision service, makes the orchestrator throw: there is
    no result.  A failure of the nutrition lookup after the classifier
    succeeded is absorbed: the error is logged and the orchestrator returns
    the assembled record, with [nutritionalData] undefined. *)
Theorem classifier_failure_terminal_lookup_failure_absorbed (w : World) (imageUri : string) :
  (forall base64Image e,
      key_set (GOOGLE_API_KEY w) = true ->
      readAsStringAsync w imageUri = inr base64Image ->
      axios_post w (visionUrl w) (visionRequest base64Image) = inl e ->
      outcome (classify w imageUri) = inl e)
  /\ (forall e, outcome (classify w imageUri) = inl e ->
                exists e', outcome (analyzeFoodImage w imageUri) = inl e')
  /\ (forall data e,
         outcome (classify w imageUri) = inr data ->
         selectedQuery data <> Unknown_Food ->
         outcome (fetchNutritionalData w (selectedQuery data)) = inl e ->
         exists r, outcome (analyzeFoodImage w imageUri) = inr r
                   /\ r = assembled w data
                   /\ name r = selectedName data
                   /\ nutritionalData r = None
                   /\ isFoodItem r = true
                   /\ In (console_error "Error fetching nutritional data from USDA API:"
                                        (LogError e))
                         (trace (analyzeFoodImage w imageUri))).
Proof.
  split; [|split].
  - intros b e K R P. rewrite classify_outcome, K, R, P. reflexivity.
  - intros e C. rewrite analyzeFoodImage_outcome, C, analyzeFoodImage_catch_outcome.
    eexists. reflexivity.
  - intros data e C N F. exists (assembled w data).
    rewrite analyzeFoodImage_outcome, C. split; [reflexivity|]. split; [reflexivity|].
    split; [reflexivity|]. unfold assembled; simpl.
    destruct (String.eqb_spec (selectedQuery data) Unknown_Food) as [E|_]; [congruence|].
    rewrite F. split; [reflexivity|]. split; [reflexivity|].
    rewrite (analyzeFoodImage_trace _ _ C), lookupNutrition_trace.
    destruct (String.eqb_spec (selectedQuery data) Unknown_Food) as [E|_]; [congruence|].
    rewrite F. rewrite !in_app_iff. right; right; right. left. reflexivity.
Qed.

Lemma classifier_failure_terminal_lookup_failure_absorbed_witness :
  (exists e', outcome (analyzeFoodImage (scenarioWorld (inl serviceDown) (inl serviceDown))
                                        "file:///meal.jpg") = inl e')
  /\ (exists r, outcome (analyzeFoodImage
                           (scenarioWorld (visionAnswers scenarioA) (inl serviceDown))
                           "file:///meal.jpg") = inr r
                /\ nutritionalData r = None /\ isFoodItem r = true).
Proof.
  split.
  - pose proof (classifier_failure_terminal_lookup_failure_absorbed
                  (scenarioWorld (inl serviceDown) (inl serviceDown)) "file:///meal.jpg")
      as (P & T & _).
    apply (T serviceDown). apply (P "aW1hZ2U="); reflexivity.
  - pose proof (classifier_failure_terminal_lookup_failure_absorbed
                  (scenarioWorld (visionAnswers scenarioA) (inl serviceDown))
                  "file:///meal.jpg") as (_ & _ & A).
    destruct (A scenarioA (new_Error "Failed to fetch nutritional data for hot dog"))
      as (r & Hr & _ & _ & Hn & Hf & _).
    + vm_compute. reflexivity.
    + vm_compute. discriminate.
    + vm_compute. reflexivity.
    + exists r. auto.
Defined.

(** ** The search request *)

Lemma split_on_segment c s1 s2 :
  has_char c s1 = false ->
  split_on c (s1 ++ String c s2) = s1 :: split_on c s2.
Proof.
  induction s1 as [|a s1 IH]; simpl; intros H.
  - now rewrite Ascii.eqb_refl.
  - apply orb_false_elim in H as [Ha H]. rewrite Ha, (IH H). reflexivity.
Qed.

Lemma has_char_app c s1 s2 :
  has_char c (s1 ++ s2) = orb (has_char c s1) (has_char c s2).
Proof.
  induction s1 as [|a s1 IH]; simpl; [reflexivity|]. now rewrite IH, orb_assoc.
Qed.

(** [encodeURIComponent] escapes the separator of query parameters. *)
Lemma encodeURIComponent_no_ampersand s :
  has_char "&" (encodeURIComponent s) = false.
Proof.
  induction s as [|a s IH]; [reflexivity|].
  simpl encodeURIComponent. destruct (uri_unreserved a) eqn:U.
  - simpl. rewrite IH, orb_false_r.
    destruct (Ascii.eqb_spec a "&") as [->|]; [vm_compute in U; discriminate | reflexivity].
  - cbn [has_char]. rewrite IH, orb_false_r.
    destruct a as [[] [] [] [] [] [] [] []]; vm_compute; reflexivity.
Qed.

Lemma searchUrl_pageSize w foodName :
  queryParameter "pageSize" (searchUrl w foodName) = Some "5".
Proof.
  unfold queryParameter, searchUrl, USDA_API_URL.
  set (K := key_text (USDA_API_KEY w)).
  set (E := encodeURIComponent foodName).
  change (after_first "?" _)
    with (Some (("query=" ++ E) ++ String "&" ("dataType=Survey%20(FNDDS)"
                  ++ String "&" ("pageSize=5" ++ String "&" ("api_key=" ++ K))))).
  cbv iota.
  rewrite split_on_segment
    by (rewrite has_char_app; unfold E; now rewrite encodeURIComponent_no_ampersand).
  rewrite split_on_segment by reflexivity.
  rewrite split_on_segment by reflexivity.
  reflexivity.
Qed.

Lemma fetchNutritionalData_body_events w foodName :
  trace (fetchNutritionalData_body w foodName) =
  console_log "Using USDA_API_KEY:" (LogKey (USDA_API_KEY w))
  :: if negb (key_set (USDA_API_KEY w)) then []
     else http_get (searchUrl w foodName)
          :: match axios_get w (searchUrl w foodName) with
             | inl _ => []
             | inr searchResponse =>
                 console_log ("USDA API Search Results for " ++ foodName ++ ":") LogJson
                 :: match foods searchResponse with
                    | [] => []
                    | _ :: _ => [console_log ("Selected Food Data for " ++ foodName ++ ":") LogJson]
                    end
             end.
Proof.
  unfold fetchNutritionalData_body.
  rewrite trace_bind. simpl trace at 1. simpl outcome at 1. cbv iota.
  rewrite trace_bind.
  destruct (negb (key_set (USDA_API_KEY w))); [reflexivity|].
  simpl trace at 1. simpl outcome at 1. cbv iota.
  rewrite trace_bind. unfold await at 1 2. simpl trace at 1. simpl outcome at 1.
  destruct (axios_get w (searchUrl w foodName)) as [e|r]; [reflexivity|].
  rewrite trace_bind. simpl trace at 1. simpl outcome at 1. cbv iota.
  destruct (foods r); reflexivity.
Qed.

(** C9.  With the key configured, the lookup sends one search request,
    whose [pageSize] parameter is 5 whatever the food name; it extracts the
    nutrients of the first record of the answer, whatever follows it; and
    on an answer with no record it raises "No matching food found", which
    it logs and rethrows as a failure, so that no NutritionalData is
    produced. *)
Theorem nutrition_lookup_first_match (w : World) (foodName : string) :
  key_set (USDA_API_KEY w) = true ->
  queryParameter "pageSize" (searchUrl w foodName) = Some "5"
  /\ (forall url, In (http_get url) (trace (fetchNutritionalData w foodName)) ->
                  url = searchUrl w foodName)
  /\ In (http_get (searchUrl w foodName)) (trace (fetchNutritionalData w foodName))
  /\ match axios_get w (searchUrl w foodName) with
     | inl _ =>
         outcome (fetchNutritionalData w foodName)
         = inl (new_Error ("Failed to fetch nutritional data for " ++ foodName))
     | inr searchResponse =>
         match foods searchResponse with
         | first :: _ =>
             outcome (fetchNutritionalData w foodName)
             = inr (extractNutrients (foodNutrients first))
         | [] =>
             outcome (fetchNutritionalData_body w foodName)
             = inl (new_Error ("No matching food found for " ++ foodName))
             /\ outcome (fetchNutritionalData w foodName)
                = inl (new_Error ("Failed to fetch nutritional data for " ++ foodName))
             /\ In (console_error "USDA API Error:"
                                  (LogText ("No matching food found for " ++ foodName)))
                   (trace (fetchNutritionalData w foodName))
         end
     end.
Proof.
  intros K. split; [apply searchUrl_pageSize|].
  assert (T : trace (fetchNutritionalData w foodName)
              = (trace (fetchNutritionalData_body w foodName)
                 ++ match outcome (fetchNutritionalData_body w foodName) with
                    | inl e => [console_error "USDA API Error:" (LogText (message e))]
                    | inr _ => []
                    end)%list).
  { unfold fetchNutritionalData. rewrite trace_try_catch.
    destruct (outcome (fetchNutritionalData_body w foodName)); reflexivity. }
  rewrite T, fetchNutritionalData_outcome, fetchNutritionalData_body_outcome,
    fetchNutritionalData_body_events, K. simpl negb. cbv iota.
  destruct (axios_get w (searchUrl w foodName)) as [e|r].
  - split; [|split; [|reflexivity]].
    + simpl. intros url [H|[H|[H|[]]]]; congruence.
    + simpl. auto.
  - destruct (foods r) as [|first rest].
    + split; [|split; [|split; [reflexivity|split; [reflexivity|]]]].
      * simpl. intros url [H|[H|[H|[H|[]]]]]; congruence.
      * simpl. auto.
      * simpl. auto.
    + split; [|split; [|reflexivity]].
      * simpl. intros url [H|[H|[H|[H|[]]]]]; congruence.
      * simpl. auto.
Qed.

Lemma nutrition_lookup_first_match_witness :
  let w := scenarioWorld (visionAnswers scenarioA)
                         (inr {| foods := [hotDogRecord; otherRecord] |}) in
  queryParameter "pageSize" (searchUrl w "hot dog") = Some "5"
  /\ outcome (fetchNutritionalData w "hot dog")
     = inr (extractNutrients (foodNutrients hotDogRecord)).
Proof.
  intros w.
  destruct (@nutrition_lookup_first_match w "hot dog" eq_refl) as (P & _ & _ & F).
  split; [exact P | exact F].
Defined.

(** C10.  One nutrient updates at most one member: the member of the
    first category, in the order energy, protein, carbohydrate, total
    lipid or fat, fiber, sugar, sodium, whose substring its lower-cased name
    contains; every other member keeps its value, and a nutrient that
    mentions no category changes nothing.  A name that contains both
    "protein" and "fat" sets protein only. *)
Theorem exclusive_category_chain (nd : NutritionalData) (n : Nutrient) :
  match categoryOf n with
  | Some c =>
      first_such (fun c => mentions c (nutrientName n)) chainOrder c
      /\ field c (updateNutrient nd n) = Some (value n)
      /\ forall c', c' = c \/ field c' (updateNutrient nd n) = field c' nd
  | None =>
      none_such (fun c => mentions c (nutrientName n)) chainOrder
      /\ updateNutrient nd n = nd
  end
  /\ (mentions Protein "Protein fat" = true
      /\ mentions Fat "Protein fat" = true
      /\ protein (updateNutrient nd (nutrient "Protein fat" 7)) = of_Z 7
      /\ fat (updateNutrient nd (nutrient "Protein fat" 7)) = fat nd).
Proof.
  split.
  - pose proof (updateNutrient_categoryOf nd n) as U.
    destruct (categoryOf n) as [c|] eqn:C.
    + split; [|exact U]. now apply find_first_such.
    + split; [|exact U]. now apply find_none_such.
  - repeat split.
Qed.

(** ** Saving a result *)

Lemma or_zero_strict_eq x : is_nan x = false -> strict_eq (or_zero x) x = true.
Proof.
  destruct x as [s|s| |s m e]; try discriminate; intros _.
  - reflexivity.
  - now destruct s.
  - unfold or_zero, strict_eq, SFeqb, SFcompare. simpl.
    rewrite Z.compare_refl, Pos.compare_cont_refl. now destruct s.
Qed.

Lemma handleSaveToHistory_row w s u uri r nd :
  ready s u uri r nd ->
  insertedRows (trace (handleSaveToHistory w s))
  = [ {| user_id := id u; image_url := uri; analysis_data := analysisDataOf (ofResult r) |} ].
Proof.
  intros (U & I & T & F & B & N & S). unfold handleSaveToHistory.
  rewrite U, I, F, T. simpl fd_isFoodItem. simpl fd_nutritionalData.
  rewrite B, N, S. simpl negb. simpl orb. cbv iota.
  rewrite trace_try_catch, trace_bind. unfold await at 1 2.
  simpl trace at 1. simpl outcome at 1 2.
  destruct (supabase_from_insert w "meals" _) as [e|[e|]]; reflexivity.
Qed.

(** What a save sends, for any input: one row, for the user and the image,
    whose total has each required member equal to the input member after
    [|| 0]. *)
Lemma save_total_is_input_or_zero (w : World) (s : Screen) (u : User) (uri : string)
        (r : FoodAnalysisResult) (nd : NutritionalData) :
  ready s u uri r nd ->
  exists row,
    insertedRows (trace (handleSaveToHistory w s)) = [row]
    /\ user_id row = id u /\ image_url row = uri
    /\ total_is_input_or_zero nd (total (analysis_data row))
    /\ Forall (fun m => is_nan (snd m nd) = true
                        \/ strict_eq (fst m (total (analysis_data row))) (snd m nd) = true)
              requiredMembers.
Proof.
  intros R. rewrite (handleSaveToHistory_row w R). eexists. split; [reflexivity|].
  destruct R as (_ & _ & _ & _ & _ & N & _).
  simpl. rewrite N. unfold total_is_input_or_zero, requiredMembers.
  split; [reflexivity|]. split; [reflexivity|]. split.
  - repeat (apply Forall_cons; [reflexivity|]). apply Forall_nil.
  - repeat (apply Forall_cons;
            [simpl;
             match goal with
             | |- _ \/ strict_eq (or_zero ?x) _ = true =>
                 destruct (is_nan x) eqn:E;
                 [left; reflexivity | right; now apply or_zero_strict_eq]
             end|]).
    apply Forall_nil.
Qed.

Lemma or_zero_parsed x :
  parsedNumber x = true ->
  or_zero x = x \/ (or_zero x = zero /\ strict_eq x zero = true).
Proof.
  destruct x as [s|s| |s m e]; try discriminate; intros _.
  - right. split; reflexivity.
  - now left.
  - now left.
Qed.

(** Extraction from parsed nutrient values gives parsed required members. *)
Lemma extractNutrients_parsed (l : list Nutrient) :
  Forall (fun n => parsedNumber (value n) = true) l ->
  requiredParsed (extractNutrients l).
Proof.
  intros H. unfold extractNutrients.
  assert (G : forall nd, requiredParsed nd -> requiredParsed (fold_left updateNutrient l nd)).
  { induction H as [|n l Hn H IH]; intros nd P; [exact P|]. simpl. apply IH.
    unfold requiredParsed, requiredMembers in *.
    inversion_clear P as [|? ? P1 Q]. inversion_clear Q as [|? ? P2 Q'].
    inversion_clear Q' as [|? ? P3 Q]. inversion_clear Q as [|? ? P4 _].
    simpl in P1, P2, P3, P4. unfold updateNutrient.
    repeat match goal with
           | |- context [if ?b then _ else _] =>
               destruct b; [repeat (apply Forall_cons; [assumption|]); apply Forall_nil|]
           end.
    repeat (apply Forall_cons; [assumption|]). apply Forall_nil. }
  apply G. repeat (apply Forall_cons; [reflexivity|]). apply Forall_nil.
Qed.

(** C7.  Saving a result that is a food item and has its nutritional data
    sends one row, for the user and the image, whose aggregate total has each
    required member (calories, protein, carbs, and fats for fat) equal to
    the member of the input: the two are [===], and the stored member is the
    input value itself unless the input was a zero, which is stored as 0.
    The input members are numbers parsed from JSON, hence not NaN. *)
Theorem save_total_equals_input (w : World) (s : Screen) (u : User) (uri : string)
        (r : FoodAnalysisResult) (nd : NutritionalData) :
  ready s u uri r nd ->
  requiredParsed nd ->
  exists row,
    insertedRows (trace (handleSaveToHistory w s)) = [row]
    /\ user_id row = id u /\ image_url row = uri
    /\ total_equals_input nd (total (analysis_data row))
    /\ kept_or_was_zero nd (total (analysis_data row)).
Proof.
  intros R P. rewrite (handleSaveToHistory_row w R). eexists. split; [reflexivity|].
  destruct R as (_ & _ & _ & _ & _ & N & _).
  simpl. rewrite N. split; [reflexivity|]. split; [reflexivity|].
  unfold requiredParsed, total_equals_input, kept_or_was_zero, requiredMembers in *.
  inversion_clear P as [|? ? P1 Q]. inversion_clear Q as [|? ? P2 Q'].
  inversion_clear Q' as [|? ? P3 Q]. inversion_clear Q as [|? ? P4 _].
  simpl in P1, P2, P3, P4. split.
  - repeat (apply Forall_cons;
            [simpl; apply or_zero_strict_eq;
             match goal with
             | H : parsedNumber ?x = true |- is_nan ?x = false =>
                 unfold parsedNumber in H; now destruct (is_nan x)
             end|]).
    apply Forall_nil.
  - repeat (apply Forall_cons; [simpl; now apply or_zero_parsed|]).
    apply Forall_nil.
Qed.

Lemma save_total_equals_input_witness :
  let nd := extractNutrients (foodNutrients hotDogRecord) in
  let w := scenarioWorld (visionAnswers scenarioA) (inr {| foods := [hotDogRecord] |}) in
  exists row,
    insertedRows (trace (handleSaveToHistory w (screenOf (resultWith nd)))) = [row]
    /\ total_equals_input nd (total (analysis_data row))
    /\ total_calories (total (analysis_data row)) = of_Z 290
    /\ total_protein (total (analysis_data row)) = of_Z 10.
Proof.
  intros nd w.
  destruct (@save_total_equals_input w (screenOf (resultWith nd)) {| id := "user-1" |}
              "file:///meal.jpg" (resultWith nd) nd)
    as (row & Hrow & _ & _ & Ht & _).
  - repeat split.
  - unfold requiredParsed, requiredMembers.
    repeat (apply Forall_cons; [reflexivity|]). apply Forall_nil.
  - exists row. split; [exact Hrow|]. split; [exact Ht|].
    vm_compute in Hrow. injection Hrow as <-. split; reflexivity.
Defined.

(** ** Order and subtraction of binary64 numbers *)

Section Binary64.
Local Open Scope Z_scope.

Lemma digits2_pos_bounds m :
  2 ^ (Zpos (digits2_pos m) - 1) <= Zpos m < 2 ^ Zpos (digits2_pos m).
Proof.
  induction m as [m IH|m IH|]; simpl digits2_pos.
  - rewrite Pos2Z.inj_succ. replace (Z.succ (Zpos (digits2_pos m)) - 1) with (Z.succ (Zpos (digits2_pos m) - 1)) by lia.
    rewrite !Z.pow_succ_r by lia. lia.
  - rewrite Pos2Z.inj_succ. replace (Z.succ (Zpos (digits2_pos m)) - 1) with (Z.succ (Zpos (digits2_pos m) - 1)) by lia.
    rewrite !Z.pow_succ_r by lia. lia.
  - simpl. lia.
Qed.

Lemma shr_1_m mrs : 0 <= shr_m mrs -> shr_m (shr_1 mrs) = shr_m mrs / 2.
Proof.
  destruct mrs as [m r s]. intros H. rewrite <- Z.div2_div.
  destruct m as [|[p|p|]|p]; try reflexivity. simpl in H. lia.
Qed.

Lemma iter_shr_1_m p : forall mrs,
  0 <= shr_m mrs -> shr_m (iter_pos shr_1 p mrs) = shr_m mrs / 2 ^ Zpos p.
Proof.
  induction p as [p IH|p IH|]; intros mrs H; simpl iter_pos.
  - assert (H1 : 0 <= shr_m (shr_1 mrs)) by (rewrite shr_1_m by assumption; apply Z.div_pos; lia).
    assert (H2 : 0 <= shr_m (iter_pos shr_1 p (shr_1 mrs)))
      by (rewrite IH by assumption; apply Z.div_pos; lia).
    rewrite IH, IH, shr_1_m by assumption.
    rewrite !Z.div_div by lia. f_equal.
    rewrite Pos2Z.inj_xI.
    replace (2 * Zpos p + 1) with (1 + Zpos p + Zpos p) by lia.
    rewrite !Z.pow_add_r by lia. change (2 ^ 1) with 2. ring.
  - assert (H2 : 0 <= shr_m (iter_pos shr_1 p mrs))
      by (rewrite IH by assumption; apply Z.div_pos; lia).
    rewrite IH, IH by assumption.
    rewrite !Z.div_div by lia. f_equal.
    replace (Zpos p~0) with (Zpos p + Zpos p) by lia.
    rewrite Z.pow_add_r by lia. ring.
  - rewrite shr_1_m by assumption. reflexivity.
Qed.


Lemma emin64_value : emin64 = -1074.
Proof. reflexivity. Qed.

Lemma fexp_value k : fexp prec emax k = Z.max (k - 53) (-1074).
Proof. reflexivity. Qed.

(** Shifting to the format's exponent keeps a positive mantissa positive
    when the exponent is not below the least one. *)
Lemma shr_fexp_positive m e l :
  0 < m -> emin64 <= e ->
  0 < shr_m (fst (shr_fexp prec emax m e l)) /\ emin64 <= snd (shr_fexp prec emax m e l).
Proof.
  intros Hm He. rewrite emin64_value in *. unfold shr_fexp, shr. rewrite fexp_value.
  assert (M : shr_m (shr_record_of_loc m l) = m) by (destruct l as [|[]]; reflexivity).
  destruct m as [|m|m]; try lia. simpl Zdigits2.
  pose proof (digits2_pos_bounds m) as [D _].
  set (d := Zpos (digits2_pos m)) in *.
  destruct (Z.max (d + e - 53) (-1074) - e) as [|p|p] eqn:N; simpl fst; simpl snd.
  - rewrite M. lia.
  - rewrite iter_shr_1_m by (rewrite M; lia). rewrite M. split; [|lia].
    apply Z.div_str_pos. split; [apply Z.pow_pos_nonneg; lia|].
    apply Z.le_trans with (2 ^ (d - 1)); [|exact D].
    apply Z.pow_le_mono_r; lia.
  - rewrite M. lia.
Qed.

Lemma binary_round_aux_sign s m e :
  0 < m -> emin64 <= e ->
  sign_of (binary_round_aux prec emax s m e loc_Exact) = if s then Lt else Gt.
Proof.
  intros Hm He. unfold binary_round_aux.
  pose proof (shr_fexp_positive loc_Exact Hm He) as [P1 E1].
  destruct (shr_fexp prec emax m e loc_Exact) as [mrs' e']. simpl fst in P1. simpl snd in E1.
  assert (P2 : 0 < round_nearest_even (shr_m mrs') (loc_of_shr_record mrs')).
  { unfold round_nearest_even. destruct (loc_of_shr_record mrs') as [|[]]; try lia.
    destruct (Z.even (shr_m mrs')); lia. }
  pose proof (shr_fexp_positive loc_Exact P2 E1) as [P3 _].
  destruct (shr_fexp prec emax _ e' loc_Exact) as [mrs'' e'']. simpl fst in P3.
  destruct (shr_m mrs'') as [|q|q]; try lia.
  destruct (Z.leb e'' (emax - prec)); reflexivity.
Qed.

Lemma iter_xO m d : Zpos (Pos.iter xO m d) = Zpos m * 2 ^ Zpos d.
Proof.
  induction d as [|d IH] using Pos.peano_ind.
  - simpl. lia.
  - rewrite Pos.iter_succ, Pos2Z.inj_succ, Z.pow_succ_r by lia.
    rewrite Pos2Z.inj_xO, IH. ring.
Qed.

Lemma shl_align_value m e e' :
  e' <= e ->
  Zpos (fst (shl_align m e e')) = Zpos m * 2 ^ (e - e')
  /\ snd (shl_align m e e') = e'.
Proof.
  intros H. unfold shl_align. destruct (e' - e) as [|p|p] eqn:D; simpl fst; simpl snd.
  - replace (e - e') with 0 by lia. simpl. lia.
  - lia.
  - rewrite iter_xO. replace (e - e') with (Zpos p) by lia. auto.
Qed.

Lemma shl_align_exponent m e e' :
  emin64 <= e -> emin64 <= e' -> emin64 <= snd (shl_align m e e').
Proof.
  intros H H'. unfold shl_align. destruct (e' - e); simpl; lia.
Qed.

Lemma binary_round_sign s m e :
  emin64 <= e -> sign_of (binary_round prec emax s m e) = if s then Lt else Gt.
Proof.
  intros He. unfold binary_round.
  pose proof (@shl_align_exponent m e (fexp prec emax (Zpos (digits2_pos m) + e)) He) as E.
  destruct (shl_align m e _) as [mz ez]. simpl snd in E.
  apply binary_round_aux_sign; [lia|]. apply E.
  rewrite fexp_value, emin64_value. lia.
Qed.

(** The sign of a correctly rounded integer multiple of [2^e] is the sign
    of the integer: nothing rounds to zero at or above the least exponent. *)
Lemma binary_normalize_sign z e :
  emin64 <= e -> sign_of (binary_normalize prec emax z e false) = (z ?= 0).
Proof.
  intros He. destruct z as [|p|p]; simpl binary_normalize.
  - reflexivity.
  - now rewrite binary_round_sign.
  - now rewrite binary_round_sign.
Qed.

Lemma mul_compare_pos a b p : 0 < p -> (a * p ?= b * p) = (a ?= b).
Proof.
  intros H. destruct (Z.compare_spec a b) as [E|L|G].
  - subst. apply Z.compare_refl.
  - apply Z.compare_lt_iff. nia.
  - apply Z.compare_gt_iff. nia.
Qed.

Lemma valid_finite s m e :
  valid (S754_finite s m e) = true ->
  -1074 <= e <= 971
  /\ Zpos (digits2_pos m) <= 53
  /\ (e = -1074 \/ Zpos (digits2_pos m) = 53).
Proof.
  unfold valid, valid_binary, bounded, canonical_mantissa. rewrite fexp_value.
  intros H. apply andb_prop in H as [C B].
  apply Z.eqb_eq in C. apply Z.leb_le in B. change (emax - prec) with 971 in B. lia.
Qed.

(** On canonical mantissas the order by exponent, then mantissa, is the
    order of the values. *)
Lemma canonical_order mx ex my ey :
  valid (S754_finite false mx ex) = true ->
  valid (S754_finite false my ey) = true ->
  match ex ?= ey with
  | Lt => Lt
  | Gt => Gt
  | Eq => Pos.compare_cont Eq mx my
  end = (Zpos mx * 2 ^ (ex - emin64) ?= Zpos my * 2 ^ (ey - emin64)).
Proof.
  intros Vx Vy. rewrite emin64_value.
  apply valid_finite in Vx as (Ex & Dx & Nx). apply valid_finite in Vy as (Ey & Dy & Ny).
  pose proof (digits2_pos_bounds mx) as [Lx Ux]. pose proof (digits2_pos_bounds my) as [Ly Uy].
  assert (Bx : Zpos mx < 2 ^ 53)
    by (eapply Z.lt_le_trans; [exact Ux | apply Z.pow_le_mono_r; lia]).
  assert (By : Zpos my < 2 ^ 53)
    by (eapply Z.lt_le_trans; [exact Uy | apply Z.pow_le_mono_r; lia]).
  destruct (Z.compare_spec ex ey) as [E|L|G].
  - subst ey. rewrite mul_compare_pos by (apply Z.pow_pos_nonneg; lia).
    symmetry. apply Pos2Z.inj_compare.
  - symmetry. apply Z.compare_lt_iff.
    destruct Ny as [Ny|Ny]; [lia|]. rewrite Ny in Ly. change (2 ^ (53 - 1)) with (2 ^ 52) in Ly.
    replace (ey - -1074) with ((ex - -1074) + (ey - ex)) by lia.
    rewrite Z.pow_add_r by lia.
    assert (P : 0 < 2 ^ (ex - -1074)) by (apply Z.pow_pos_nonneg; lia).
    assert (Q : 2 ^ 1 <= 2 ^ (ey - ex)) by (apply Z.pow_le_mono_r; lia).
    change (2 ^ 1) with 2 in Q. change (2 ^ 53) with (2 * 2 ^ 52) in Bx.
    set (p := 2 ^ (ex - -1074)) in *. set (q := 2 ^ (ey - ex)) in *.
    set (c := 2 ^ 52) in *.
    assert (A1 : Zpos mx * p < 2 * c * p) by (apply Z.mul_lt_mono_pos_r; lia).
    assert (A2 : c * p <= Zpos my * p) by (apply Z.mul_le_mono_nonneg_r; lia).
    assert (A3 : Zpos my * (p * 2) <= Zpos my * (p * q))
      by (apply Z.mul_le_mono_nonneg_l; [lia | apply Z.mul_le_mono_nonneg_l; lia]).
    lia.
  - symmetry. apply Z.compare_gt_iff.
    destruct Nx as [Nx|Nx]; [lia|]. rewrite Nx in Lx. change (2 ^ (53 - 1)) with (2 ^ 52) in Lx.
    replace (ex - -1074) with ((ey - -1074) + (ex - ey)) by lia.
    rewrite Z.pow_add_r by lia.
    assert (P : 0 < 2 ^ (ey - -1074)) by (apply Z.pow_pos_nonneg; lia).
    assert (Q : 2 ^ 1 <= 2 ^ (ex - ey)) by (apply Z.pow_le_mono_r; lia).
    change (2 ^ 1) with 2 in Q. change (2 ^ 53) with (2 * 2 ^ 52) in By.
    set (p := 2 ^ (ey - -1074)) in *. set (q := 2 ^ (ex - ey)) in *.
    set (c := 2 ^ 52) in *.
    assert (A1 : Zpos my * p < 2 * c * p) by (apply Z.mul_lt_mono_pos_r; lia).
    assert (A2 : c * p <= Zpos mx * p) by (apply Z.mul_le_mono_nonneg_r; lia).
    assert (A3 : Zpos mx * (p * 2) <= Zpos mx * (p * q))
      by (apply Z.mul_le_mono_nonneg_l; [lia | apply Z.mul_le_mono_nonneg_l; lia]).
    lia.
Qed.

Lemma valid_sign s s' m e : valid (S754_finite s m e) = valid (S754_finite s' m e).
Proof. reflexivity. Qed.

Lemma finite_key_bounds s m e :
  valid (S754_finite s m e) = true ->
  0 < Zpos m * 2 ^ (e - emin64) < 2 ^ 2098.
Proof.
  intros V. rewrite emin64_value. apply valid_finite in V as (E & D & _).
  pose proof (digits2_pos_bounds m) as [_ U].
  assert (B : Zpos m < 2 ^ 53)
    by (eapply Z.lt_le_trans; [exact U | apply Z.pow_le_mono_r; lia]).
  assert (P : 0 < 2 ^ (e - -1074)) by (apply Z.pow_pos_nonneg; lia).
  assert (Q : 2 ^ (e - -1074) <= 2 ^ 2045) by (apply Z.pow_le_mono_r; lia).
  replace (2 ^ 2098) with (2 ^ 53 * 2 ^ 2045) by (rewrite <- Z.pow_add_r by lia; reflexivity).
  set (p := 2 ^ (e - -1074)) in *. set (a := 2 ^ 53) in *. set (b := 2 ^ 2045) in *.
  split; [nia|].
  assert (A1 : Zpos m * p < a * p) by (apply Z.mul_lt_mono_pos_r; lia).
  assert (A2 : a * p <= a * b) by (apply Z.mul_le_mono_nonneg_l; lia).
  lia.
Qed.

Lemma well_formed_inv x :
  well_formed x = true -> valid x = true /\ x <> S754_nan.
Proof.
  unfold well_formed. intros H. apply andb_prop in H as [V N].
  split; [exact V|]. intros ->. discriminate.
Qed.

Ltac by_sign :=
  repeat match goal with s : bool |- _ => destruct s end;
  cbv beta iota delta [cond_Zopp sign_of]; try f_equal; symmetry;
  first [ apply Z.compare_eq_iff; lia
        | apply Z.compare_lt_iff; lia
        | apply Z.compare_gt_iff; lia ].

(** [key] embeds the order of the well-formed numbers into the integers. *)
Lemma SFcompare_key x y :
  well_formed x = true -> well_formed y = true ->
  SFcompare x y = Some (key x ?= key y).
Proof.
  intros Wx Wy. apply well_formed_inv in Wx as [Vx Nx]. apply well_formed_inv in Wy as [Vy Ny].
  assert (B : 0 < 2 ^ 2098) by (apply Z.pow_pos_nonneg; lia).
  destruct x as [sx|sx| |sx mx ex]; try congruence;
    destruct y as [sy|sy| |sy my ey]; try congruence; unfold key, SFcompare;
    try (pose proof (@finite_key_bounds _ _ _ Vx) as Kx);
    try (pose proof (@finite_key_bounds _ _ _ Vy) as Ky);
    remember (2 ^ 2098) as b eqn:Hb; clear Hb.
  1-8: clear Vx Vy; by_sign.
  rewrite (valid_sign sx false) in Vx. rewrite (valid_sign sy false) in Vy.
  pose proof (@canonical_order _ _ _ _ Vx Vy) as C. clear Vx Vy.
  destruct sx, sy; cbv beta iota delta [cond_Zopp]; f_equal.
  - rewrite Z.compare_opp.
    rewrite (Z.compare_antisym (Zpos mx * 2 ^ (ex - emin64)) (Zpos my * 2 ^ (ey - emin64))).
    rewrite <- C. destruct (ex ?= ey); reflexivity.
  - symmetry. apply Z.compare_lt_iff. lia.
  - symmetry. apply Z.compare_gt_iff. lia.
  - exact C.
Qed.

(** The sign of [x - y], as a comparator's value, is the order of [x] and
    [y]: the difference of two well-formed numbers is never rounded to
    zero. *)
Lemma sub_sign_key x y :
  well_formed x = true -> well_formed y = true ->
  sign_of (sub x y) = (key x ?= key y).
Proof.
  intros Wx Wy. apply well_formed_inv in Wx as [Vx Nx]. apply well_formed_inv in Wy as [Vy Ny].
  assert (B : 0 < 2 ^ 2098) by (apply Z.pow_pos_nonneg; lia).
  destruct x as [sx|sx| |sx mx ex]; try congruence;
    destruct y as [sy|sy| |sy my ey]; try congruence; unfold key, sub, SFsub;
    try (pose proof (@finite_key_bounds _ _ _ Vx) as Kx);
    try (pose proof (@finite_key_bounds _ _ _ Vy) as Ky);
    remember (2 ^ 2098) as b eqn:Hb; clear Hb.
  1-8: clear Vx Vy; by_sign.
  cbv zeta.
  apply valid_finite in Vx as (Ex & _). apply valid_finite in Vy as (Ey & _).
  rewrite binary_normalize_sign by (rewrite emin64_value; lia).
  destruct (@shl_align_value mx ex (Z.min ex ey)) as [Mx _]; [lia|].
  destruct (@shl_align_value my ey (Z.min ex ey)) as [My _]; [lia|].
  rewrite Mx, My. rewrite emin64_value in *.
  set (ez := Z.min ex ey) in *.
  assert (P : 0 < 2 ^ (ez - -1074)) by (apply Z.pow_pos_nonneg; lia).
  replace (ex - -1074) with ((ex - ez) + (ez - -1074)) by lia.
  replace (ey - -1074) with ((ey - ez) + (ez - -1074)) by lia.
  rewrite !Z.pow_add_r by lia.
  set (p := 2 ^ (ez - -1074)) in *.
  set (X := Zpos mx * 2 ^ (ex - ez)). set (Y := Zpos my * 2 ^ (ey - ez)).
  replace (cond_Zopp sx (Zpos mx * (2 ^ (ex - ez) * p))) with (cond_Zopp sx X * p)
    by (destruct sx; unfold X; cbv beta iota delta [cond_Zopp]; ring).
  replace (cond_Zopp sy (Zpos my * (2 ^ (ey - ez) * p))) with (cond_Zopp sy Y * p)
    by (destruct sy; unfold Y; cbv beta iota delta [cond_Zopp]; ring).
  rewrite mul_compare_pos by exact P.
  rewrite <- Z.compare_sub. reflexivity.
Qed.

End Binary64.

(** ** Sorting *)

Section InsertionSort.
Variable A : Type.
Variable comparefn : A -> A -> number.
Variable rank : A -> Z.
Variable good : A -> Prop.

(** The comparator is consistent on the good elements: it orders them by
    descending rank. *)
Hypothesis comparefn_rank :
  forall x y, good x -> good y -> SortCompare comparefn x y = (rank y ?= rank x)%Z.

Lemma insert_Permutation x l : Permutation (x :: l) (insert comparefn x l).
Proof.
  induction l as [|y l IH]; simpl; [apply Permutation_refl|].
  destruct (SortCompare comparefn x y); try apply Permutation_refl.
  eapply perm_trans; [apply perm_swap|]. now apply perm_skip.
Qed.

Lemma sort_Permutation l : Permutation l (sort comparefn l).
Proof.
  induction l as [|x l IH]; simpl; [constructor|].
  eapply perm_trans; [apply perm_skip, IH | apply insert_Permutation].
Qed.

Lemma insert_descending x l :
  good x -> Forall good l ->
  StronglySorted (descending_by rank) l -> StronglySorted (descending_by rank) (insert comparefn x l).
Proof.
  intros Gx Gl S. induction S as [|y l S IH F]; simpl.
  - repeat constructor.
  - inversion Gl as [|? ? Gy Gl']; subst.
    rewrite (comparefn_rank Gx Gy).
    destruct (Z.compare_spec (rank y) (rank x)) as [E|L|G].
    + constructor; [now constructor|]. constructor; [unfold descending_by; lia|].
      eapply Forall_impl; [|exact F]. unfold descending_by. intros z Hz. lia.
    + constructor; [now constructor|]. constructor; [unfold descending_by; lia|].
      eapply Forall_impl; [|exact F]. unfold descending_by. intros z Hz. lia.
    + constructor; [now apply IH|].
      eapply Permutation_Forall; [apply insert_Permutation|].
      constructor; [unfold descending_by; lia | exact F].
Qed.

Lemma sort_descending l :
  Forall good l -> StronglySorted (descending_by rank) (sort comparefn l).
Proof.
  induction l as [|x l IH]; intros G; simpl; [constructor|].
  inversion G; subst. apply insert_descending; auto.
  eapply Permutation_Forall; [apply sort_Permutation | assumption].
Qed.
End InsertionSort.

Lemma byScoreDescending_rank x y :
  well_scored x -> well_scored y ->
  SortCompare byScoreDescending x y = (key (score y) ?= key (score x))%Z.
Proof. intros Wx Wy. unfold SortCompare, byScoreDescending. now apply sub_sign_key. Qed.

Lemma key_le_SFleb x y :
  well_formed x = true -> well_formed y = true ->
  (key x <= key y)%Z -> SFleb x y = true.
Proof.
  intros Wx Wy L. unfold SFleb. rewrite (@SFcompare_key x y Wx Wy).
  destruct (Z.compare_spec (key x) (key y)); try reflexivity. lia.
Qed.

Lemma descending_key_SFleb l :
  Forall well_scored l ->
  StronglySorted (descending_by (fun a => key (score a))) l ->
  StronglySorted scoreDescending l.
Proof.
  intros G S. induction S as [|a l S IH F]; constructor.
  - apply IH. now inversion G.
  - inversion G as [|? ? Ga Gl]; subst. rewrite Forall_forall in *.
    intros b Hb. apply key_le_SFleb; [now apply Gl | exact Ga | now apply F].
Qed.

Lemma allAnnotations_sorted data :
  Forall well_scored (mergeAnnotations data) ->
  StronglySorted scoreDescending (allAnnotationsOf data).
Proof.
  intros W. unfold allAnnotationsOf. apply descending_key_SFleb.
  - eapply Permutation_Forall; [apply sort_Permutation | exact W].
  - exact (@sort_descending Annotation byScoreDescending (fun a => key (score a))
             well_scored byScoreDescending_rank (mergeAnnotations data) W).
Qed.

Lemma describe_nonempty w best (l : list Annotation) :
  l <> [] -> describe w best l = JsString.join ", " (map (renderAnnotation w) l).
Proof.
  intros N. unfold describe. destruct l as [|a l]; [congruence|].
  simpl. now rewrite orb_true_r.
Qed.

(** C8.  Whatever order the service returns them in, the labels and
    objects are merged and then sorted: the sequence the pipeline works on
    is a permutation of the merged one and is in descending order of
    score, provided every score is a binary64 value other than NaN.  When
    that sequence is not empty the returned description is the comma-joined
    list, in that order, of one text per annotation:
    "<text> (<score * 100 by toFixed(2)>%) [<type>]". *)
Theorem annotations_sorted_and_described (w : World) (data : AnnotateImageResponse) :
  Forall well_scored (mergeAnnotations data) ->
  Permutation (mergeAnnotations data) (allAnnotationsOf data)
  /\ StronglySorted scoreDescending (allAnnotationsOf data)
  /\ exists r,
       outcome (assemble w data) = inr r
       /\ (allAnnotationsOf data = []
           \/ description r
              = JsString.join ", "
                  (map (fun a => a_description a ++ " ("
                                 ++ toFixed (Number_toString w) 2 (mul (score a) (of_Z 100))
                                 ++ "%) [" ++ type_ a ++ "]")
                       (allAnnotationsOf data))).
Proof.
  intros W. split; [apply sort_Permutation|]. split; [now apply allAnnotations_sorted|].
  exists (assembled w data). split; [apply assemble_outcome|].
  destruct (allAnnotationsOf data) as [|a l] eqn:E; [now left|]. right.
  unfold assembled. simpl description. rewrite E.
  now rewrite describe_nonempty.
Qed.

Lemma annotations_sorted_and_described_witness :
  let w := scenarioWorld (visionAnswers scenarioUnsorted) (inl serviceDown) in
  StronglySorted scoreDescending (allAnnotationsOf scenarioUnsorted)
  /\ map a_description (allAnnotationsOf scenarioUnsorted) = ["hot dog"; "Hot dog"; "fast food"]
  /\ exists r,
       outcome (assemble w scenarioUnsorted) = inr r
       /\ description r
          = "hot dog (95.00%) [label], Hot dog (88.00%) [object], fast food (80.00%) [label]".
Proof.
  intros w.
  destruct (@annotations_sorted_and_described w scenarioUnsorted) as (_ & S & r & Hr & D).
  - repeat constructor.
  - split; [exact S|]. split; [reflexivity|]. exists r. split; [exact Hr|].
    destruct D as [D|D]; [discriminate D | rewrite D; reflexivity].
Defined.


(** * Further properties *)

(** ** The two predicates of the relevance filter *)

Lemma lower_ascii_idempotent c :
  JsString.lower_ascii (JsString.lower_ascii c) = JsString.lower_ascii c.
Proof. destruct c as [[] [] [] [] [] [] [] []]; reflexivity. Qed.

Lemma toLowerCase_idempotent s :
  JsString.toLowerCase (JsString.toLowerCase s) = JsString.toLowerCase s.
Proof.
  induction s as [|c s IH]; simpl; [reflexivity|].
  now rewrite lower_ascii_idempotent, IH.
Qed.

Lemma toLowerCase_app a b :
  JsString.toLowerCase (a ++ b) = JsString.toLowerCase a ++ JsString.toLowerCase b.
Proof. induction a as [|c a IH]; simpl; [reflexivity|]. now rewrite IH. Qed.

Lemma startsWith_app k s t :
  JsString.startsWith k s = true -> JsString.startsWith k (s ++ t) = true.
Proof.
  revert s. induction k as [|a k IH]; intros s H; [reflexivity|].
  destruct s as [|b s]; [discriminate|]. simpl in *.
  apply andb_prop in H as [E H]. now rewrite E, (IH s H).
Qed.

Lemma includes_app_r s t k :
  JsString.includes s k = true -> JsString.includes (s ++ t) k = true.
Proof.
  induction s as [|c s IH]; intros H.
  - simpl in H. rewrite orb_false_r in H. destruct k; [|discriminate].
    destruct t; reflexivity.
  - simpl in H. apply orb_prop in H as [H|H].
    + change (String c s ++ t) with (String c (s ++ t)).
      unfold JsString.includes; fold JsString.includes.
      change (String c (s ++ t)) with (String c s ++ t).
      now rewrite (startsWith_app _ _ t H).
    + change (String c s ++ t) with (String c (s ++ t)).
      unfold JsString.includes; fold JsString.includes.
      rewrite (IH H). apply orb_true_r.
Qed.

Lemma includes_app_l a s k :
  JsString.includes s k = true -> JsString.includes (a ++ s) k = true.
Proof.
  induction a as [|c a IH]; intros H; [exact H|].
  change (String c a ++ s) with (String c (a ++ s)).
  unfold JsString.includes; fold JsString.includes.
  rewrite (IH H). apply orb_true_r.
Qed.

(** X2.  Keyword matching is by substring and blind to case: a text that
    contains a food-related text is food-related, and so is its lower-cased
    form. *)
Theorem food_keyword_match_by_substring (a d b : string) :
  isFoodRelated d = true ->
  isFoodRelated (a ++ d ++ b) = true /\ isFoodRelated (JsString.toLowerCase d) = true.
Proof.
  unfold isFoodRelated. intros H. apply existsb_exists in H as (k & Hk & H). split.
  - apply existsb_exists. exists k. split; [exact Hk|].
    rewrite !toLowerCase_app. now apply includes_app_l, includes_app_r.
  - apply existsb_exists. exists k. split; [exact Hk|].
    now rewrite toLowerCase_idempotent.
Qed.

Lemma food_keyword_match_by_substring_witness :
  isFoodRelated "Hamster wheel" = true /\ isFoodRelated "ham" = true.
Proof.
  destruct (@food_keyword_match_by_substring "" "Ham" "ster wheel") as [H1 H2].
  - reflexivity.
  - split; [exact H1 | exact H2].
Defined.

Lemma generic_not_food d : isGenericCategory d = true -> isFoodRelated d = false.
Proof.
  unfold isGenericCategory, isFoodRelated. intros H.
  apply existsb_exists in H as (g & Hg & E). apply String.eqb_eq in E. rewrite E.
  simpl in Hg.
  repeat (destruct Hg as [<-|Hg]; [vm_compute; reflexivity|]).
  destruct Hg.
Qed.

Lemma foodRelated_specificFood a : specificFood a = foodRelated a.
Proof.
  unfold specificFood, foodRelated.
  destruct (isFoodRelated (a_description a)) eqn:F; [|reflexivity].
  destruct (isGenericCategory (a_description a)) eqn:G; [|reflexivity].
  apply generic_not_food in G. congruence.
Qed.

Lemma find_ext {A} (f g : A -> bool) l : (forall x, f x = g x) -> find_ f l = find_ g l.
Proof.
  intros E. unfold find_. induction l as [|x l IH]; simpl; [reflexivity|].
  now rewrite E, IH.
Qed.

(** X1.  No text is both food-related and a generic category: none of the
    generic category words contains a keyword.  So the first food-related
    annotation is always the specific one, and the selection's second
    branch, which would fall back to a generic food-related annotation, is
    never taken: its console line never appears. *)
Theorem generic_fallback_never_taken (l : list Annotation) :
  (forall d, andb (isFoodRelated d) (isGenericCategory d) = false)
  /\ find_ specificFood l = find_ foodRelated l
  /\ forall text, ~ In (genericFallbackLine text) (trace (selectNames l)).
Proof.
  split; [|split].
  - intros d. destruct (isGenericCategory d) eqn:G.
    + now rewrite (generic_not_food d G).
    + apply andb_false_r.
  - apply find_ext, foodRelated_specificFood.
  - intros text. unfold selectNames, genericFallbackLine.
    change (find_ (fun a => andb (isFoodRelated (a_description a))
                                 (negb (isGenericCategory (a_description a)))) l)
      with (find_ specificFood l).
    change (find_ (fun a => isFoodRelated (a_description a)) l) with (find_ foodRelated l).
    rewrite (find_ext specificFood foodRelated l foodRelated_specificFood).
    destruct (find_ foodRelated l) as [s|].
    + simpl. intros [H|[]]. discriminate H.
    + destruct l as [|top rest]; simpl; [tauto|]. intros [H|[]]. discriminate H.
Qed.

(** ** What the orchestrator returns *)

Lemma selectNames_from_annotation l :
  l <> [] ->
  exists a, In a l
            /\ outcome (selectNames l)
               = inr (a_description a, JsString.or_else (a_description a) Unknown_Food).
Proof.
  intros N. rewrite selectNames_outcome.
  destruct (find_ specificFood l) as [s|] eqn:Fs.
  - exists s. split; [|reflexivity]. now apply (find_some specificFood l).
  - destruct (find_ foodRelated l) as [b|] eqn:Fb.
    + exists b. split; [|reflexivity]. now apply (find_some foodRelated l).
    + destruct l as [|top rest]; [congruence|]. exists top. split; [now left | reflexivity].
Qed.

Lemma selected_from_annotation data :
  mergeAnnotations data <> [] ->
  exists a, In a (mergeAnnotations data)
            /\ selectedQuery data = a_description a
            /\ selectedName data = JsString.or_else (a_description a) Unknown_Food.
Proof.
  intros N.
  assert (N' : allAnnotationsOf data <> []).
  { intros E. apply N. apply Permutation_nil. rewrite <- E.
    apply Permutation_sym, sort_Permutation. }
  destruct (@selectNames_from_annotation _ N') as (a & Ha & Ho).
  exists a. split.
  - eapply Permutation_in; [apply Permutation_sym, sort_Permutation | exact Ha].
  - unfold selectedQuery, selectedName. rewrite Ho. auto.
Qed.

(** X3.  [isFoodItem] does not say that food was recognised: whenever the
    vision service returns at least one annotation and none of them reads
    "Unknown Food", the result has [isFoodItem] true and some annotation's
    text was used as the lookup query, food-related or not. *)
Theorem any_annotation_makes_a_food_item (w : World) (data : AnnotateImageResponse) :
  mergeAnnotations data <> [] ->
  Forall (fun a => a_description a <> Unknown_Food) (mergeAnnotations data) ->
  exists r, outcome (assemble w data) = inr r
            /\ isFoodItem r = true
            /\ In (selectedQuery data) (map a_description (mergeAnnotations data))
            /\ lookup_attempted w (trace (assemble w data)).
Proof.
  intros N F. exists (assembled w data). split; [apply assemble_outcome|].
  destruct (@selected_from_annotation data N) as (a & Ha & Hq & _).
  assert (Q : selectedQuery data <> Unknown_Food).
  { rewrite Hq. rewrite Forall_forall in F. now apply F. }
  split; [|split].
  - simpl. destruct (String.eqb_spec (selectedQuery data) Unknown_Food); [congruence|reflexivity].
  - rewrite Hq. now apply in_map.
  - rewrite assemble_trace. unfold lookup_attempted. apply in_or_app. right.
    now apply lookupNutrition_attempted.
Qed.

Lemma any_annotation_makes_a_food_item_witness :
  let car := {| labelAnnotations := Some [ {| la_description := "car"; la_score := decimal 97 2 |} ];
                localizedObjectAnnotations := None |} in
  let w := scenarioWorld (visionAnswers car) (inr {| foods := [] |}) in
  exists r, outcome (assemble w car) = inr r /\ isFoodItem r = true /\ name r = "car"
            /\ nutritionalData r = None.
Proof.
  intros car w.
  destruct (@any_annotation_makes_a_food_item w car) as (r & Hr & Hf & _).
  - discriminate.
  - repeat constructor. discriminate.
  - exists r. split; [exact Hr|]. split; [exact Hf|].
    rewrite assemble_outcome in Hr. injection Hr as <-. split; reflexivity.
Defined.

Lemma or_else_truthy d : JsString.or_else d Unknown_Food <> "".
Proof. destruct d; discriminate. Qed.

Lemma selectedName_nonempty data : selectedName data <> "".
Proof.
  unfold selectedName. rewrite selectNames_outcome.
  destruct (find_ specificFood _); [apply or_else_truthy|].
  destruct (find_ foodRelated _); [apply or_else_truthy|].
  destruct (allAnnotationsOf data); [discriminate | apply or_else_truthy].
Qed.

Lemma sentinel_query_sentinel_name data :
  selectedQuery data = Unknown_Food -> selectedName data = Unknown_Food.
Proof.
  unfold selectedQuery, selectedName. rewrite selectNames_outcome.
  destruct (find_ specificFood _) as [a|]; [intros ->; reflexivity|].
  destruct (find_ foodRelated _) as [a|]; [intros ->; reflexivity|].
  destruct (allAnnotationsOf data) as [|a ?]; [reflexivity | intros ->; reflexivity].
Qed.

(** X4.  Every result the orchestrator returns has a display name that is
    not empty; and a result that is not a food item is named "Unknown Food"
    and carries no nutritional data. *)
Theorem result_name_never_empty (w : World) (imageUri : string) (r : FoodAnalysisResult) :
  outcome (analyzeFoodImage w imageUri) = inr r ->
  name r <> ""
  /\ (isFoodItem r = true \/ (name r = Unknown_Food /\ nutritionalData r = None)).
Proof.
  rewrite analyzeFoodImage_outcome.
  destruct (outcome (classify w imageUri)) as [e|data].
  { rewrite analyzeFoodImage_catch_outcome. discriminate. }
  intros H. injection H as <-. split; [apply selectedName_nonempty|].
  simpl. destruct (String.eqb_spec (selectedQuery data) Unknown_Food) as [E|N].
  - right. split; [now apply sentinel_query_sentinel_name | reflexivity].
  - now left.
Qed.

Lemma result_name_never_empty_witness :
  let blank := {| labelAnnotations := Some [ {| la_description := ""; la_score := decimal 8 1 |} ];
                  localizedObjectAnnotations := None |} in
  let w := scenarioWorld (visionAnswers blank) (inr {| foods := [] |}) in
  name (assembled w blank) <> ""
  /\ (isFoodItem (assembled w blank) = true
      \/ (name (assembled w blank) = Unknown_Food /\ nutritionalData (assembled w blank) = None)).
Proof.
  intros blank w.
  apply (@result_name_never_empty w "file:///meal.jpg" (assembled w blank)).
  vm_compute. reflexivity.
Defined.

(** ** Failures and effects of the orchestrator *)

Lemma classify_trace w imageUri :
  trace (classify w imageUri) =
  console_log "Using GOOGLE_API_KEY:" (LogKey (GOOGLE_API_KEY w))
  :: if negb (key_set (GOOGLE_API_KEY w)) then []
     else fs_read imageUri
          :: match readAsStringAsync w imageUri with
             | inl _ => []
             | inr base64Image =>
                 http_post (visionUrl w) (visionRequest base64Image)
                 :: match axios_post w (visionUrl w) (visionRequest base64Image) with
                    | inl _ => []
                    | inr _ => [console_log "Google Vision API Response:" LogJson]
                    end
             end.
Proof.
  unfold classify.
  rewrite trace_bind. simpl trace at 1. simpl outcome at 1. cbv iota.
  rewrite trace_bind.
  destruct (negb (key_set (GOOGLE_API_KEY w))); [reflexivity|].
  simpl trace at 1. simpl outcome at 1. cbv iota.
  rewrite trace_bind. unfold await at 1 2. simpl trace at 1. simpl outcome at 1.
  destruct (readAsStringAsync w imageUri) as [e|b]; [reflexivity|].
  rewrite trace_bind. unfold await at 1 2. simpl trace at 1. simpl outcome at 1.
  destruct (axios_post w (visionUrl w) (visionRequest b)) as [e|r]; [reflexivity|].
  rewrite trace_bind. simpl trace at 1. simpl outcome at 1. cbv iota.
  destruct (responses r); reflexivity.
Qed.

Lemma analyzeFoodImage_catch_trace e :
  trace (analyzeFoodImage_catch e) =
  console_error "Error analyzing food image with Google Cloud Vision API:" (LogError e)
  :: match response e with
     | Some r => [console_error "Google Vision API Error Response:" (LogText (data r))]
     | None => []
     end.
Proof.
  unfold analyzeFoodImage_catch. rewrite !trace_bind. simpl trace at 1. simpl outcome at 1.
  cbv iota. destruct (response e) as [r|]; simpl trace at 1; simpl outcome at 1; cbv iota.
  - destruct (Z.eqb (status r) 403); reflexivity.
  - reflexivity.
Qed.

Lemma analyzeFoodImage_trace_failure w imageUri e :
  outcome (classify w imageUri) = inl e ->
  trace (analyzeFoodImage w imageUri)
  = (trace (classify w imageUri) ++ trace (analyzeFoodImage_catch e))%list.
Proof.
  intros H. unfold analyzeFoodImage, analyzeFoodImage_body.
  rewrite trace_try_catch, outcome_bind, trace_bind, H. now rewrite app_nil_r.
Qed.

(** X5.  Without a vision key the analysis fails before it touches
    anything: it reads no file and sends no request, logs the failure, and
    throws "Failed to analyze food image" with the missing-key message as
    its cause. *)
Theorem missing_vision_key_fails_before_any_call (w : World) (imageUri : string) :
  key_set (GOOGLE_API_KEY w) = false ->
  externalCalls (trace (analyzeFoodImage w imageUri)) = []
  /\ outcome (analyzeFoodImage w imageUri)
     = inl (analysisFailure
              "Google Cloud Vision API key is not set. Please configure it in your .env and app.json.").
Proof.
  intros K.
  assert (C : outcome (classify w imageUri)
              = inl (new_Error
                  "Google Cloud Vision API key is not set. Please configure it in your .env and app.json."))
    by (rewrite classify_outcome, K; reflexivity).
  split.
  - rewrite (analyzeFoodImage_trace_failure _ _ C), classify_trace, K,
      analyzeFoodImage_catch_trace. reflexivity.
  - rewrite analyzeFoodImage_outcome, C, analyzeFoodImage_catch_outcome. reflexivity.
Qed.

Lemma missing_vision_key_fails_before_any_call_witness :
  externalCalls (trace (analyzeFoodImage unconfiguredWorld "file:///meal.jpg")) = []
  /\ outcome (analyzeFoodImage unconfiguredWorld "file:///meal.jpg")
     = inl (analysisFailure
              "Google Cloud Vision API key is not set. Please configure it in your .env and app.json.").
Proof.
  apply (@missing_vision_key_fails_before_any_call unconfiguredWorld "file:///meal.jpg").
  reflexivity.
Defined.

(** X6.  When the request to the vision service is rejected, the caller
    gets the access-denied message exactly when the rejection carries HTTP
    status 403; otherwise "Failed to analyze food image" with the error's
    message, or "Unknown error" when the message is empty.  The body of a
    rejection's response is logged in both cases. *)
Theorem rejected_request_is_classified (w : World) (imageUri base64Image : string)
        (e : JsError) :
  key_set (GOOGLE_API_KEY w) = true ->
  readAsStringAsync w imageUri = inr base64Image ->
  axios_post w (visionUrl w) (visionRequest base64Image) = inl e ->
  outcome (analyzeFoodImage w imageUri)
  = inl (match response e with
         | Some r =>
             if Z.eqb (status r) 403 then accessDenied
             else analysisFailure (if JsString.truthy (message e) then message e
                                   else "Unknown error")
         | None => analysisFailure (if JsString.truthy (message e) then message e
                                    else "Unknown error")
         end)
  /\ match response e with
     | Some r => In (console_error "Google Vision API Error Response:" (LogText (data r)))
                    (trace (analyzeFoodImage w imageUri))
     | None => True
     end.
Proof.
  intros K R P.
  assert (C : outcome (classify w imageUri) = inl e)
    by (rewrite classify_outcome, K, R, P; reflexivity).
  split.
  - rewrite analyzeFoodImage_outcome, C, analyzeFoodImage_catch_outcome.
    destruct (response e) as [r|]; [destruct (Z.eqb (status r) 403)|]; reflexivity.
  - destruct (response e) as [r|] eqn:E; [|exact I].
    rewrite (analyzeFoodImage_trace_failure _ _ C), analyzeFoodImage_catch_trace, E.
    apply in_or_app. right. right. left. reflexivity.
Qed.

Lemma rejected_request_is_classified_witness :
  outcome (analyzeFoodImage (scenarioWorld (inl forbidden) (inl serviceDown)) "file:///meal.jpg")
  = inl accessDenied
  /\ outcome (analyzeFoodImage (scenarioWorld (inl serviceDown) (inl serviceDown))
                               "file:///meal.jpg")
     = inl (analysisFailure "Request failed with status code 503").
Proof.
  split.
  - apply (@rejected_request_is_classified (scenarioWorld (inl forbidden) (inl serviceDown))
             "file:///meal.jpg" "aW1hZ2U=" forbidden); reflexivity.
  - apply (@rejected_request_is_classified (scenarioWorld (inl serviceDown) (inl serviceDown))
             "file:///meal.jpg" "aW1hZ2U=" serviceDown); reflexivity.
Defined.

Lemma fetchNutritionalData_trace w foodName :
  trace (fetchNutritionalData w foodName)
  = (trace (fetchNutritionalData_body w foodName)
     ++ match outcome (fetchNutritionalData_body w foodName) with
        | inl e => [console_error "USDA API Error:" (LogText (message e))]
        | inr _ => []
        end)%list.
Proof.
  unfold fetchNutritionalData. rewrite trace_try_catch.
  destruct (outcome (fetchNutritionalData_body w foodName)); reflexivity.
Qed.

Lemma fetchNutritionalData_calls w foodName :
  externalCalls (trace (fetchNutritionalData w foodName))
  = if key_set (USDA_API_KEY w) then [http_get (searchUrl w foodName)] else [].
Proof.
  rewrite fetchNutritionalData_trace, fetchNutritionalData_body_outcome,
    fetchNutritionalData_body_events.
  unfold externalCalls. rewrite filter_app.
  destruct (key_set (USDA_API_KEY w)); simpl negb; cbv iota; [|reflexivity].
  destruct (axios_get w (searchUrl w foodName)) as [e|r]; [reflexivity|].
  destruct (foods r); reflexivity.
Qed.

Lemma selectNames_calls l : externalCalls (trace (selectNames l)) = [].
Proof.
  unfold selectNames. destruct (find_ _ l); [reflexivity|].
  destruct (find_ _ l); [reflexivity|]. destruct l; reflexivity.
Qed.

Lemma lookupNutrition_calls w q :
  externalCalls (trace (lookupNutrition w q))
  = if orb (String.eqb q Unknown_Food) (negb (key_set (USDA_API_KEY w))) then []
    else [http_get (searchUrl w q)].
Proof.
  rewrite lookupNutrition_trace. destruct (String.eqb q Unknown_Food); [reflexivity|].
  unfold externalCalls. rewrite filter_app.
  fold (externalCalls (trace (fetchNutritionalData w q))).
  rewrite fetchNutritionalData_calls.
  destruct (key_set (USDA_API_KEY w)), (outcome (fetchNutritionalData w q)); reflexivity.
Qed.

Lemma analyzeFoodImage_catch_calls e : externalCalls (trace (analyzeFoodImage_catch e)) = [].
Proof. rewrite analyzeFoodImage_catch_trace. destruct (response e); reflexivity. Qed.

(** X7.  The outside calls of one analysis, exactly.  With a vision key
    it reads the image file; only if the read succeeded it posts to the
    vision service, once; only if that request succeeded and its answer has
    a response it may send one search to the nutrition service, and it does
    so exactly when the selected query is not "Unknown Food" and a nutrition
    key is set.  Each call is made at most once, in that order; a failed
    call ends the sequence; nothing is written to the record store. *)
Theorem external_calls_in_order (w : World) (imageUri : string) :
  externalCalls (trace (analyzeFoodImage w imageUri))
  = if negb (key_set (GOOGLE_API_KEY w)) then []
    else
      fs_read imageUri
      :: match readAsStringAsync w imageUri with
         | inl _ => []
         | inr base64Image =>
             http_post (visionUrl w) (visionRequest base64Image)
             :: match axios_post w (visionUrl w) (visionRequest base64Image) with
                | inl _ => []
                | inr response =>
                    match responses response with
                    | [] => []
                    | data :: _ =>
                        if orb (String.eqb (selectedQuery data) Unknown_Food)
                               (negb (key_set (USDA_API_KEY w)))
                        then []
                        else [http_get (searchUrl w (selectedQuery data))]
                    end
                end
         end.
Proof.
  destruct (outcome (classify w imageUri)) as [e|data] eqn:C.
  - rewrite (analyzeFoodImage_trace_failure _ _ C). unfold externalCalls.
    rewrite filter_app. fold (externalCalls (trace (analyzeFoodImage_catch e))).
    rewrite analyzeFoodImage_catch_calls, app_nil_r, classify_trace.
    rewrite classify_outcome in C.
    destruct (negb (key_set (GOOGLE_API_KEY w))); [reflexivity|].
    destruct (readAsStringAsync w imageUri) as [e1|b]; [reflexivity|].
    destruct (axios_post w (visionUrl w) (visionRequest b)) as [e2|r]; [reflexivity|].
    destruct (responses r); [reflexivity | discriminate].
  - rewrite (analyzeFoodImage_trace _ _ C). unfold externalCalls.
    rewrite !filter_app.
    fold (externalCalls (trace (selectNames (allAnnotationsOf data)))).
    fold (externalCalls (trace (lookupNutrition w (selectedQuery data)))).
    rewrite selectNames_calls, lookupNutrition_calls.
    rewrite classify_outcome in C. rewrite classify_trace.
    destruct (negb (key_set (GOOGLE_API_KEY w))); [discriminate|].
    destruct (readAsStringAsync w imageUri) as [e1|b]; [discriminate|].
    destruct (axios_post w (visionUrl w) (visionRequest b)) as [e2|r]; [discriminate|].
    destruct (responses r) as [|d rest]; [discriminate|]. injection C as ->.
    destruct (orb _ _); reflexivity.
Qed.

(** X8.  Without a nutrition key the lookup sends no request at all and
    fails; the analysis still returns its record, marked as a food item and
    without nutritional data. *)
Theorem missing_nutrition_key_sends_no_search (w : World) (imageUri : string)
        (data : AnnotateImageResponse) :
  key_set (USDA_API_KEY w) = false ->
  outcome (classify w imageUri) = inr data ->
  selectedQuery data <> Unknown_Food ->
  filter isHttpGet (trace (analyzeFoodImage w imageUri)) = []
  /\ exists r, outcome (analyzeFoodImage w imageUri) = inr r
               /\ isFoodItem r = true /\ nutritionalData r = None.
Proof.
  intros K C N. split.
  - assert (E : forall t, filter isHttpGet t = filter isHttpGet (externalCalls t)).
    { intros t. unfold externalCalls. induction t as [|ev t IH]; [reflexivity|].
      destruct ev; simpl; rewrite ?IH; reflexivity. }
    rewrite E, (analyzeFoodImage_trace _ _ C). unfold externalCalls. rewrite !filter_app.
    fold (externalCalls (trace (selectNames (allAnnotationsOf data)))).
    fold (externalCalls (trace (lookupNutrition w (selectedQuery data)))).
    rewrite selectNames_calls, lookupNutrition_calls, K, orb_true_r, !app_nil_r.
    rewrite classify_trace.
    destruct (negb (key_set (GOOGLE_API_KEY w))); [reflexivity|].
    destruct (readAsStringAsync w imageUri) as [e1|b]; [reflexivity|].
    destruct (axios_post w (visionUrl w) (visionRequest b)); reflexivity.
  - exists (assembled w data). rewrite analyzeFoodImage_outcome, C.
    split; [reflexivity|]. simpl.
    destruct (String.eqb_spec (selectedQuery data) Unknown_Food); [congruence|].
    rewrite fetchNutritionalData_outcome, fetchNutritionalData_body_outcome, K.
    split; reflexivity.
Qed.

Lemma missing_nutrition_key_sends_no_search_witness :
  filter isHttpGet (trace (analyzeFoodImage visionOnlyWorld "file:///meal.jpg")) = []
  /\ exists r, outcome (analyzeFoodImage visionOnlyWorld "file:///meal.jpg") = inr r
               /\ isFoodItem r = true /\ nutritionalData r = None.
Proof.
  apply (@missing_nutrition_key_sends_no_search visionOnlyWorld "file:///meal.jpg" scenarioA).
  - reflexivity.
  - vm_compute. reflexivity.
  - vm_compute. discriminate.
Defined.

(** ** The search request *)

(** X9.  The food name cannot disturb the search request: whatever the
    name and the key, the request's [query] parameter is exactly the encoded
    name and its [dataType] parameter is the survey data type. *)
Theorem search_request_parameters (w : World) (foodName : string) :
  queryParameter "query" (searchUrl w foodName) = Some (encodeURIComponent foodName)
  /\ queryParameter "dataType" (searchUrl w foodName) = Some "Survey%20(FNDDS)".
Proof.
  unfold queryParameter, searchUrl, USDA_API_URL.
  set (K := key_text (USDA_API_KEY w)).
  set (E := encodeURIComponent foodName).
  change (after_first "?" _)
    with (Some (("query=" ++ E) ++ String "&" ("dataType=Survey%20(FNDDS)"
                  ++ String "&" ("pageSize=5" ++ String "&" ("api_key=" ++ K))))).
  cbv iota.
  rewrite split_on_segment
    by (rewrite has_char_app; unfold E; now rewrite encodeURIComponent_no_ampersand).
  rewrite split_on_segment by reflexivity.
  split; reflexivity.
Qed.

(** ** Where extracted values come from *)

Lemma Category_eqb_eq c d : Category_eqb c d = true <-> c = d.
Proof. destruct c, d; simpl; split; congruence. Qed.

Lemma hasCategory_true c n : hasCategory c n = true <-> categoryOf n = Some c.
Proof.
  unfold hasCategory. destruct (categoryOf n) as [d|].
  - rewrite Category_eqb_eq. split; congruence.
  - split; discriminate.
Qed.

Lemma hasCategory_false c n : hasCategory c n = false <-> categoryOf n <> Some c.
Proof.
  rewrite <- hasCategory_true. destruct (hasCategory c n); split; congruence.
Qed.

Lemma existsb_hasCategory_false c l :
  existsb (hasCategory c) l = false <-> Forall (fun n => categoryOf n <> Some c) l.
Proof.
  induction l as [|n l IH]; simpl.
  - split; [constructor | reflexivity].
  - rewrite orb_false_iff, IH, hasCategory_false. split.
    + intros [H1 H2]. now constructor.
    + intros H. inversion H; auto.
Qed.

Lemma fold_updateNutrient_origin l : forall nd c,
  (existsb (hasCategory c) l = false
   /\ field c (fold_left updateNutrient l nd) = field c nd)
  \/ (exists n, In n l /\ categoryOf n = Some c
                /\ field c (fold_left updateNutrient l nd) = Some (value n)).
Proof.
  induction l as [|n l IH]; intros nd c; simpl; [now left|].
  destruct (IH (updateNutrient nd n) c) as [[E F]|(m & Hm & Cm & F)].
  - destruct (hasCategory c n) eqn:H.
    + right. exists n. apply hasCategory_true in H.
      split; [now left|]. split; [exact H|]. rewrite F. now apply updateNutrient_same.
    + left. split; [exact E|]. rewrite F. apply updateNutrient_other.
      now apply hasCategory_false.
  - right. exists m. auto.
Qed.

(** X10.  Extraction invents nothing.  A member of the extracted record
    is undefined only when it is optional and no nutrient of the list has
    its category; a defined member is either the initial 0 of a required
    member that no nutrient matched, or the value of a nutrient of the list
    that has its category. *)
Theorem extracted_value_origin (l : list Nutrient) (c : Category) :
  match field c (extractNutrients l) with
  | None => required c = false /\ existsb (hasCategory c) l = false
  | Some v =>
      (required c = true /\ existsb (hasCategory c) l = false /\ v = zero)
      \/ exists n, In n l /\ categoryOf n = Some c /\ value n = v
  end.
Proof.
  unfold extractNutrients.
  destruct (fold_updateNutrient_origin l initialNutritionalData c)
    as [[E F]|(n & Hn & Cn & F)]; rewrite F.
  - destruct c; simpl; auto.
  - right. exists n. auto.
Qed.

Lemma fold_updateNutrient_independent l : forall nd nd' c,
  existsb (hasCategory c) l = true ->
  field c (fold_left updateNutrient l nd) = field c (fold_left updateNutrient l nd').
Proof.
  induction l as [|n l IH]; intros nd nd' c H; [discriminate|]. simpl.
  destruct (existsb (hasCategory c) l) eqn:E.
  - now apply IH.
  - simpl in H. rewrite E, orb_false_r in H. apply existsb_hasCategory_false in E.
    rewrite !fold_updateNutrient_other by assumption.
    apply hasCategory_true in H. now rewrite !updateNutrient_same.
Qed.

(** X11.  Extraction over a nutrient list in two parts: a member comes
    from the second part when that part has a nutrient of its category, and
    from the first part otherwise. *)
Theorem extraction_of_appended_lists (l1 l2 : list Nutrient) (c : Category) :
  field c (extractNutrients (l1 ++ l2))
  = if existsb (hasCategory c) l2
    then field c (extractNutrients l2)
    else field c (extractNutrients l1).
Proof.
  unfold extractNutrients. rewrite fold_left_app.
  destruct (existsb (hasCategory c) l2) eqn:E.
  - now apply fold_updateNutrient_independent.
  - apply fold_updateNutrient_other. now apply existsb_hasCategory_false.
Qed.

Import ResultScreenView.

Lemma optional_member_present l c :
  required c = false ->
  field c (extractNutrients l) = None <-> existsb (hasCategory c) l = false.
Proof.
  intros R. pose proof (fold_updateNutrient_origin l initialNutritionalData c) as O.
  unfold extractNutrients.
  destruct O as [[E F]|(n & Hn & Cn & F)]; rewrite F.
  - split; [intros _; exact E|]. intros _. destruct c; try discriminate; reflexivity.
  - split; [discriminate|]. intros E. apply existsb_hasCategory_false in E.
    rewrite Forall_forall in E. destruct (E n Hn Cn).
Qed.

(** X12.  The nutrition facts shown for an extracted record: always the
    four rows Calories, Protein, Carbohydrates and Fats, in that order, then
    a Fiber, a Sugar and a Sodium row, each exactly when the nutrient list
    had a nutrient of that category. *)
Theorem nutrition_rows_of_extraction (l : list Nutrient) :
  map (fun row => fst (fst row)) (nutritionRows (extractNutrients l))
  = (["Calories"; "Protein"; "Carbohydrates"; "Fats"]
     ++ (if existsb (hasCategory Fiber) l then ["Fiber"] else [])
     ++ (if existsb (hasCategory Sugar) l then ["Sugar"] else [])
     ++ (if existsb (hasCategory Sodium) l then ["Sodium"] else []))%list.
Proof.
  unfold nutritionRows. rewrite !map_app. simpl map at 1. f_equal.
  pose proof (@optional_member_present l Fiber eq_refl) as Hf.
  pose proof (@optional_member_present l Sugar eq_refl) as Hs.
  pose proof (@optional_member_present l Sodium eq_refl) as Hn.
  simpl field in Hf, Hs, Hn.
  f_equal; [|f_equal].
  - destruct (fiber (extractNutrients l)), (existsb (hasCategory Fiber) l);
      try reflexivity; [destruct Hf as [_ Hf] | destruct Hf as [Hf _]];
      discriminate (Hf eq_refl).
  - destruct (sugar (extractNutrients l)), (existsb (hasCategory Sugar) l);
      try reflexivity; [destruct Hs as [_ Hs] | destruct Hs as [Hs _]];
      discriminate (Hs eq_refl).
  - destruct (sodium (extractNutrients l)), (existsb (hasCategory Sodium) l);
      try reflexivity; [destruct Hn as [_ Hn] | destruct Hn as [Hn _]];
      discriminate (Hn eq_refl).
Qed.

(** ** Ties in the sort *)

Section StableSort.
Variable A : Type.
Variable comparefn : A -> A -> number.
Variable rank : A -> Z.
Variable good : A -> Prop.
Hypothesis comparefn_rank :
  forall x y, good x -> good y -> SortCompare comparefn x y = (rank y ?= rank x)%Z.
Variable v : Z.

Lemma insert_keeps_ties x l :
  good x -> Forall good l ->
  filter (fun a => Z.eqb (rank a) v) (insert comparefn x l)
  = filter (fun a => Z.eqb (rank a) v) (x :: l).
Proof.
  intros Gx Gl. induction Gl as [|y l Gy Gl IH]; [reflexivity|].
  simpl insert. rewrite (comparefn_rank Gx Gy).
  destruct (Z.compare_spec (rank y) (rank x)) as [E|L|G]; try reflexivity.
  change (filter (fun a => Z.eqb (rank a) v) (y :: insert comparefn x l))
    with (if Z.eqb (rank y) v
          then y :: filter (fun a => Z.eqb (rank a) v) (insert comparefn x l)
          else filter (fun a => Z.eqb (rank a) v) (insert comparefn x l)).
  rewrite IH. simpl.
  destruct (Z.eqb_spec (rank y) v), (Z.eqb_spec (rank x) v); try reflexivity. lia.
Qed.

Lemma sort_keeps_ties l :
  Forall good l ->
  filter (fun a => Z.eqb (rank a) v) (sort comparefn l)
  = filter (fun a => Z.eqb (rank a) v) l.
Proof.
  induction l as [|x l IH]; intros G; [reflexivity|].
  inversion G as [|? ? Gx Gl]; subst. simpl sort.
  rewrite insert_keeps_ties; [|assumption|].
  - simpl. now rewrite IH.
  - eapply Permutation_Forall; [apply sort_Permutation | assumption].
Qed.
End StableSort.

Lemma strict_eq_key x y :
  well_formed x = true -> well_formed y = true ->
  strict_eq x y = Z.eqb (key x) (key y).
Proof.
  intros Wx Wy. unfold strict_eq, SFeqb. rewrite (@SFcompare_key x y Wx Wy).
  rewrite Z.eqb_compare. destruct (key x ?= key y)%Z; reflexivity.
Qed.

(** X13.  The sort is stable on well-formed scores: the annotations that
    share a score keep the order in which they were merged, so between
    equal scores a label stays ahead of an object and earlier results stay
    ahead of later ones. *)
Theorem equal_scores_keep_merged_order (data : AnnotateImageResponse) (x : number) :
  Forall well_scored (mergeAnnotations data) ->
  well_formed x = true ->
  filter (fun a => strict_eq (score a) x) (allAnnotationsOf data)
  = filter (fun a => strict_eq (score a) x) (mergeAnnotations data).
Proof.
  intros W Wx. unfold allAnnotationsOf.
  assert (G : Forall well_scored (sort byScoreDescending (mergeAnnotations data)))
    by (eapply Permutation_Forall; [apply sort_Permutation | exact W]).
  rewrite (filter_ext_in (fun a => strict_eq (score a) x)
                         (fun a => Z.eqb (key (score a)) (key x))
                         (sort byScoreDescending (mergeAnnotations data))).
  - rewrite (filter_ext_in (fun a => strict_eq (score a) x)
                           (fun a => Z.eqb (key (score a)) (key x))
                           (mergeAnnotations data)).
    + exact (@sort_keeps_ties Annotation byScoreDescending (fun a => key (score a))
               well_scored byScoreDescending_rank (key x) (mergeAnnotations data) W).
    + intros a Ha. rewrite Forall_forall in W. now apply strict_eq_key; [apply W|].
  - intros a Ha. rewrite Forall_forall in G. now apply strict_eq_key; [apply G|].
Qed.

Lemma equal_scores_keep_merged_order_witness :
  map a_description
      (filter (fun a => strict_eq (score a) (decimal 9 1)) (allAnnotationsOf scenarioTie))
  = ["Bun"; "Hot dog"].
Proof.
  rewrite (@equal_scores_keep_merged_order scenarioTie (decimal 9 1)).
  - reflexivity.
  - repeat constructor.
  - reflexivity.
Defined.

(** ** Saving, again *)

Lemma handleSaveToHistory_refused w s :
  savable s = false ->
  trace (handleSaveToHistory w s) = refusedIncomplete
  \/ trace (handleSaveToHistory w s) = refusedNotFood
  \/ trace (handleSaveToHistory w s) = refusedAlreadySaved.
Proof.
  unfold savable, handleSaveToHistory.
  destruct (user s) as [u|]; [|now left].
  destruct (imageUri s) as [uri|]; [|now left].
  destruct (foodData s) as [fd|]; [|now left].
  destruct (JsString.truthy uri); [|now left]. simpl negb at 1. cbv iota.
  destruct (is_true (fd_isFoodItem fd)); [|now right; left].
  destruct (fd_nutritionalData fd); [|now right; left].
  simpl. destruct (isSaved s); [|discriminate]. intros _. now right; right.
Qed.

Lemma handleSaveToHistory_savable w s :
  savable s = true ->
  trace (handleSaveToHistory w s) =
  supabase_insert "meals" (rowsOf s)
  :: match supabase_from_insert w "meals" (rowsOf s) with
     | inl err => [ console_error "Unexpected error saving meal:" (LogError err);
                    Alert_alert "Error" "Unexpected error occurred" ]
     | inr (Some e) => [ console_error "Error saving meal to Supabase:" (LogError e);
                         Alert_alert "Error" "Failed to save meal data" ]
     | inr None => [ console_log "Meal saved to Supabase:" LogJson;
                     setIsSaved true;
                     Alert_alert "Success" "Meal saved to history!";
                     navigation_navigate "History" ]
     end.
Proof.
  unfold savable, handleSaveToHistory, rowsOf.
  destruct (user s) as [u|]; [|discriminate].
  destruct (imageUri s) as [uri|]; [|discriminate].
  destruct (foodData s) as [fd|]; [|discriminate].
  destruct (JsString.truthy uri); [|discriminate]. simpl negb at 1. cbv iota.
  destruct (is_true (fd_isFoodItem fd)); [|discriminate].
  destruct (fd_nutritionalData fd); [|discriminate].
  destruct (isSaved s); [discriminate|]. intros _. cbn [negb andb orb]. cbv iota.
  rewrite trace_try_catch, trace_bind. unfold await at 1 2.
  simpl trace at 1. simpl outcome at 1 2.
  destruct (supabase_from_insert w "meals" _) as [e|[e|]]; reflexivity.
Qed.

(** X14.  The handler writes exactly when the screen is savable: a signed-in
    user, an image, a result that is a food item with nutritional data, not
    yet saved.  Then it sends one insert of one row; otherwise it sends
    nothing and tells the user why, with one of three alerts. *)
Theorem save_writes_exactly_when_savable (w : World) (s : Screen) :
  if savable s
  then externalCalls (trace (handleSaveToHistory w s)) = [supabase_insert "meals" (rowsOf s)]
       /\ List.length (rowsOf s) = 1%nat
  else externalCalls (trace (handleSaveToHistory w s)) = []
       /\ (trace (handleSaveToHistory w s) = refusedIncomplete
           \/ trace (handleSaveToHistory w s) = refusedNotFood
           \/ trace (handleSaveToHistory w s) = refusedAlreadySaved).
Proof.
  destruct (savable s) eqn:S.
  - rewrite (handleSaveToHistory_savable w s S). split.
    + destruct (supabase_from_insert w "meals" (rowsOf s)) as [e|[e|]]; reflexivity.
    + unfold savable in S. unfold rowsOf.
      destruct (user s), (imageUri s), (foodData s); try discriminate. reflexivity.
  - pose proof (handleSaveToHistory_refused w s S) as R. split; [|exact R].
    destruct R as [-> | [-> | ->]]; reflexivity.
Qed.

(** X15.  The saved flag follows the store's answer.  When the insert is
    accepted the flag is set, and pressing again writes nothing more: the
    handler says the meal is already saved and opens the history.  When the
    store reports an error or the call throws, the screen is left as it was,
    so the save can be tried again. *)
Theorem saved_flag_prevents_second_write (w w' : World) (s : Screen) :
  savable s = true ->
  let s' := afterEvents s (trace (handleSaveToHistory w s)) in
  match supabase_from_insert w "meals" (rowsOf s) with
  | inr None =>
      isSaved s' = true
      /\ trace (handleSaveToHistory w' s') = refusedAlreadySaved
  | _ => s' = s
  end.
Proof.
  intros S s'. subst s'. rewrite (handleSaveToHistory_savable w s S).
  assert (Same : {| user := user s; imageUri := imageUri s;
                    foodData := foodData s; isSaved := isSaved s |} = s)
    by (destruct s; reflexivity).
  destruct (supabase_from_insert w "meals" (rowsOf s)) as [e|[e|]]; simpl afterEvents.
  - reflexivity.
  - reflexivity.
  - split; [reflexivity|].
    unfold savable in S. unfold handleSaveToHistory. simpl.
    destruct (user s) as [u|]; [|discriminate].
    destruct (imageUri s) as [uri|]; [|discriminate].
    destruct (foodData s) as [fd|]; [|discriminate].
    destruct (JsString.truthy uri); [|discriminate]. simpl negb at 1. cbv iota.
    destruct (is_true (fd_isFoodItem fd)); [|discriminate].
    destruct (fd_nutritionalData fd); [|discriminate]. reflexivity.
Qed.

Lemma saved_flag_prevents_second_write_witness :
  let s := screenOf (resultWith (extractNutrients (foodNutrients hotDogRecord))) in
  let w := scenarioWorld (visionAnswers scenarioA) (inr {| foods := [hotDogRecord] |}) in
  (isSaved (afterEvents s (trace (handleSaveToHistory w s))) = true
   /\ trace (handleSaveToHistory w (afterEvents s (trace (handleSaveToHistory w s))))
      = refusedAlreadySaved)
  /\ afterEvents s (trace (handleSaveToHistory rejectingWorld s)) = s.
Proof.
  intros s w. split.
  - exact (@saved_flag_prevents_second_write w w s eq_refl).
  - exact (@saved_flag_prevents_second_write rejectingWorld w s eq_refl).
Defined.

(** ** From the analysis to the save *)

Lemma data_implies_food_item w imageUri r :
  outcome (analyzeFoodImage w imageUri) = inr r ->
  nutritionalData r <> None -> isFoodItem r = true.
Proof.
  rewrite analyzeFoodImage_outcome.
  destruct (outcome (classify w imageUri)) as [e|data].
  { rewrite analyzeFoodImage_catch_outcome. discriminate. }
  intros H. injection H as <-. simpl.
  destruct (String.eqb (selectedQuery data) Unknown_Food); [congruence | reflexivity].
Qed.

(** X16.  Analysis and save together, for a signed-in user and an image.
    After the fetch effect the screen is not loading and not marked saved.
    If the analysis threw, the screen shows the error and the not-food
    notice, and a save writes nothing.  If it returned, a save writes one
    row, for this user and image and with the result's data, exactly when
    the result carries nutritional data; a result whose lookup failed cannot
    be saved. *)
Theorem analysis_then_save (w w' : World) (v : View) (u : User) (uri : string) :
  user (screen v) = Some u ->
  imageUri (screen v) = Some uri ->
  JsString.truthy uri = true ->
  let v' := fst (fetchFoodData w v) in
  loading v' = false
  /\ isSaved (screen v') = false
  /\ match outcome (analyzeFoodImage w uri) with
     | inr r =>
         error v' = None
         /\ foodData (screen v') = Some (ofResult r)
         /\ externalCalls (trace (handleSaveToHistory w' (screen v')))
            = match nutritionalData r with
              | Some _ => [ supabase_insert "meals"
                              [ {| user_id := id u; image_url := uri;
                                   analysis_data := analysisDataOf (ofResult r) |} ] ]
              | None => []
              end
     | inl _ =>
         error v' = Some "Failed to analyze image. Please try again or enter details manually."
         /\ render v'
            = [ ErrorBanner "Failed to analyze image. Please try again or enter details manually.";
                NotFoodNotice ]
         /\ trace (handleSaveToHistory w' (screen v')) = refusedNotFood
     end.
Proof.
  intros U I T v'. subst v'. unfold fetchFoodData.
  cbn [setIsSaved_ screen imageUri]. rewrite I, T. cbn [negb]. cbv iota.
  pose proof (@data_implies_food_item w uri) as D.
  destruct (analyzeFoodImage w uri) as [t [e|r]]; cbn [fst outcome snd].
  - split; [reflexivity|]. split; [reflexivity|]. split; [reflexivity|].
    split.
    + unfold render. cbn. rewrite I, T. reflexivity.
    + unfold handleSaveToHistory. cbn. rewrite U, I, T. reflexivity.
  - split; [reflexivity|]. split; [reflexivity|]. split; [reflexivity|].
    split; [reflexivity|].
    set (s' := screen _).
    destruct (nutritionalData r) as [nd|] eqn:N.
    + assert (F : isFoodItem r = true) by (apply D; [reflexivity | congruence]).
      assert (S : savable s' = true).
      { unfold savable, s'. cbn. rewrite U, I, T, N, F. reflexivity. }
      rewrite (handleSaveToHistory_savable w' s' S).
      assert (R : rowsOf s' = [ {| user_id := id u; image_url := uri;
                                   analysis_data := analysisDataOf (ofResult r) |} ]).
      { unfold rowsOf, s'. cbn. rewrite U, I. reflexivity. }
      rewrite R.
      destruct (supabase_from_insert w' "meals" _) as [e|[e|]]; reflexivity.
    + assert (S : savable s' = false).
      { unfold savable, s'. cbn. rewrite U, I, N.
        destruct (JsString.truthy uri), (isFoodItem r); reflexivity. }
      destruct (handleSaveToHistory_refused w' s' S) as [-> | [-> | ->]]; reflexivity.
Qed.

Lemma analysis_then_save_witness :
  let w := scenarioWorld (visionAnswers scenarioA) (inr {| foods := [hotDogRecord] |}) in
  let down := scenarioWorld (inl serviceDown) (inl serviceDown) in
  let v := freshView "file:///meal.jpg" in
  (exists row, externalCalls (trace (handleSaveToHistory w (screen (fst (fetchFoodData w v)))))
               = [supabase_insert "meals" [row]]
               /\ map item_name (items (analysis_data row)) = ["hot dog"]
               /\ total_calories (total (analysis_data row)) = of_Z 290)
  /\ trace (handleSaveToHistory w (screen (fst (fetchFoodData down v)))) = refusedNotFood.
Proof.
  intros w down v. split.
  - destruct (@analysis_then_save w w v {| id := "user-1" |} "file:///meal.jpg"
                eq_refl eq_refl eq_refl) as (_ & _ & H).
    change (outcome (analyzeFoodImage w "file:///meal.jpg"))
      with (@inr JsError _ (assembled w scenarioA)) in H.
    destruct H as (_ & _ & H). eexists. split; [exact H|]. split; reflexivity.
  - destruct (@analysis_then_save down w v {| id := "user-1" |} "file:///meal.jpg"
                eq_refl eq_refl eq_refl) as (_ & _ & H).
    change (outcome (analyzeFoodImage down "file:///meal.jpg"))
      with (@inl JsError FoodAnalysisResult (analysisFailure "Request failed with status code 503"))
      in H.
    destruct H as (_ & _ & H). exact H.
Defined.

(** X17.  An enabled Save button always writes.  Whenever the screen shows
    the Save button enabled, it shows the result card and not the not-food
    notice, and for a signed-in user pressing the button sends one insert of
    one row for that user; the handler's own refusals for a non-food result
    or an already saved one cannot be reached from the button. *)
Theorem enabled_save_button_always_writes (w : World) (v : View) (u : User) :
  In (SaveButton false) (render v) ->
  user (screen v) = Some u ->
  (exists row, externalCalls (trace (handleSaveToHistory w (screen v)))
               = [supabase_insert "meals" [row]]
               /\ user_id row = id u)
  /\ (exists name, In (ResultCard name) (render v))
  /\ ~ In NotFoodNotice (render v).
Proof.
  intros B U.
  assert (S : savable (screen v) = true
              /\ (exists name, In (ResultCard name) (render v))
              /\ ~ In NotFoodNotice (render v)).
  { unfold render in *. unfold savable. rewrite U.
    destruct (imageUri (screen v)) as [uri|]; [|destruct B as [B|[]]; discriminate B].
    destruct (JsString.truthy uri); [|destruct B as [B|[]]; discriminate B].
    cbn [negb] in *. cbv iota in *.
    destruct (foodData (screen v)) as [fd|].
    - destruct (loading v).
      { exfalso. destruct (error v) as [t|]; [destruct (JsString.truthy t)|];
          simpl in B; intuition discriminate. }
      destruct (is_true (fd_isFoodItem fd)), (fd_nutritionalData fd);
        cbn [negb andb orb] in *; cbv iota in *.
      + assert (Sv : isSaved (screen v) = false).
        { destruct (error v) as [t|]; [destruct (JsString.truthy t)|];
            simpl in B; intuition congruence. }
        rewrite Sv. split; [reflexivity|]. split.
        * exists (fd_name fd). destruct (error v) as [t|]; [destruct (JsString.truthy t)|];
            simpl; auto.
        * destruct (error v) as [t|]; [destruct (JsString.truthy t)|];
            simpl; intuition discriminate.
      + exfalso. destruct (error v) as [t|]; [destruct (JsString.truthy t)|];
          simpl in B; intuition discriminate.
      + exfalso. destruct (error v) as [t|]; [destruct (JsString.truthy t)|];
          simpl in B; intuition discriminate.
      + exfalso. destruct (error v) as [t|]; [destruct (JsString.truthy t)|];
          simpl in B; intuition discriminate.
    - exfalso. destruct (loading v), (error v) as [t|]; try destruct (JsString.truthy t);
        simpl in B; intuition discriminate. }
  destruct S as (S & C & N). split; [|split; assumption].
  rewrite (handleSaveToHistory_savable w (screen v) S).
  unfold savable in S. unfold rowsOf. rewrite U in *.
  destruct (imageUri (screen v)) as [uri|]; [|discriminate].
  destruct (foodData (screen v)) as [fd|]; [|discriminate].
  eexists. split.
  - destruct (supabase_from_insert w "meals" _) as [e|[e|]]; reflexivity.
  - reflexivity.
Qed.

Lemma enabled_save_button_always_writes_witness :
  let w := scenarioWorld (visionAnswers scenarioA) (inr {| foods := [hotDogRecord] |}) in
  let v := fst (fetchFoodData w (freshView "file:///meal.jpg")) in
  render v = [ResultCard "hot dog"; SaveButton false]
  /\ exists row, externalCalls (trace (handleSaveToHistory w (screen v)))
                 = [supabase_insert "meals" [row]]
                 /\ user_id row = "user-1".
Proof.
  intros w v. split; [reflexivity|].
  apply (@enabled_save_button_always_writes w v {| id := "user-1" |}).
  - right. left. reflexivity.
  - reflexivity.
Defined.

(** ** Loading the history *)

Import HistoryScreen.

(** X18.  Loading the meals of a signed-in user, by the effect or by a
    pull to refresh: one query, for that user's rows, newest first; when it
    is over neither the loading nor the refreshing indicator is on; the
    list is replaced by the rows returned (by the empty list when the store
    returns none) only if the store reported no error, and is kept as it
    was when the store reported an error or the query threw, which is then
    logged. *)
Theorem fetchMeals_keeps_list_on_failure (u : ResultScreen.User) (store : Store) (h : History) :
  let after := fetchMeals (Some u) store h in
  let refreshed := onRefresh (Some u) store h in
  h_loading (fst after) = false /\ refreshing (fst after) = false
  /\ showsLoading (fst refreshed) = false /\ refreshing (fst refreshed) = false
  /\ meals (fst refreshed) = meals (fst after)
  /\ filter (fun ev => match ev with store_select _ => true | _ => false end) (snd after)
     = [ store_select {| q_table := "meals"; q_columns := "*";
                         q_eq_column := "user_id"; q_eq_value := ResultScreen.id u;
                         q_order_by := "created_at"; q_ascending := false |} ]
  /\ match store (mealsOf u) with
     | inr {| sel_data := data; sel_error := None |} =>
         meals (fst after) = match data with Some l => l | None => [] end
         /\ List.length (snd after) = 1%nat
     | inr {| sel_data := _; sel_error := Some e |} =>
         meals (fst after) = meals h
         /\ In (history_error "Error fetching meals from Supabase:" e) (snd after)
     | inl err =>
         meals (fst after) = meals h
         /\ In (history_error "Unexpected error fetching meals:" err) (snd after)
     end.
Proof.
  unfold onRefresh, fetchMeals.
  destruct (store (mealsOf u)) as [err|[data [e|]]]; cbn; repeat split; auto.
Qed.

(** ** The size of a rounded product *)

Section PercentBound.
Local Open Scope Z_scope.

Lemma shr_fexp_bound m e l :
  0 <= m ->
  e <= snd (shr_fexp prec emax m e l)
  /\ 0 <= shr_m (fst (shr_fexp prec emax m e l))
  /\ shr_m (fst (shr_fexp prec emax m e l)) * 2 ^ (snd (shr_fexp prec emax m e l) - e) <= m
  /\ (snd (shr_fexp prec emax m e l) = e
      \/ snd (shr_fexp prec emax m e l) = fexp prec emax (Zdigits2 m + e)).
Proof.
  intros Hm. unfold shr_fexp, shr.
  assert (M : shr_m (shr_record_of_loc m l) = m) by (destruct l as [|[]]; reflexivity).
  destruct (fexp prec emax (Zdigits2 m + e) - e) as [|p|p] eqn:N; simpl fst; simpl snd.
  - rewrite M, Z.sub_diag. simpl. lia.
  - rewrite iter_shr_1_m by (rewrite M; exact Hm). rewrite M.
    replace (e + Zpos p - e) with (Zpos p) by lia.
    assert (P : 0 < 2 ^ Zpos p) by (apply Z.pow_pos_nonneg; lia).
    split; [lia|]. split; [apply Z.div_pos; lia|]. split.
    + rewrite Z.mul_comm. apply Z.mul_div_le. exact P.
    + right. lia.
  - rewrite M, Z.sub_diag. simpl. lia.
Qed.

Lemma round_nearest_even_bound m l :
  m <= round_nearest_even m l <= m + 1.
Proof.
  unfold round_nearest_even. destruct l as [|[]]; try lia. destruct (Z.even m); lia.
Qed.

(** What rounding returns: a mantissa and an exponent whose value is at
    most twice the exact value plus the least positive number. *)
Lemma binary_round_aux_bound s M E l K :
  0 < M -> 0 <= E + K ->
  exists m3 e3,
    0 <= m3 /\ E <= e3
    /\ m3 * 2 ^ (e3 + K) <= 2 * (M * 2 ^ (E + K)) + 2 ^ (emin64 + K)
    /\ binary_round_aux prec emax s M E l
       = match m3 with
         | Z0 => S754_zero s
         | Zpos m => if Z.leb e3 (emax - prec) then S754_finite s m e3 else S754_infinity s
         | Zneg _ => S754_nan
         end.
Proof.
  intros HM HK. unfold binary_round_aux.
  pose proof (@shr_fexp_bound M E l (Z.lt_le_incl _ _ HM)) as (E1 & P1 & B1 & C1).
  destruct (shr_fexp prec emax M E l) as [mrs1 e1]. simpl fst in *. simpl snd in *.
  pose proof (round_nearest_even_bound (shr_m mrs1) (loc_of_shr_record mrs1)) as [R1 R2].
  set (m2 := round_nearest_even (shr_m mrs1) (loc_of_shr_record mrs1)) in *.
  pose proof (@shr_fexp_bound m2 e1 loc_Exact ltac:(lia)) as (E3 & P3 & B3 & _).
  destruct (shr_fexp prec emax m2 e1 loc_Exact) as [mrs3 e3]. simpl fst in *. simpl snd in *.
  exists (shr_m mrs3), e3. split; [exact P3|]. split; [lia|]. split; [|reflexivity].
  set (q := shr_m mrs3) in *.
  assert (T1 : 0 < 2 ^ (e1 + K)) by (apply Z.pow_pos_nonneg; lia).
  assert (T0 : 0 < 2 ^ (E + K)) by (apply Z.pow_pos_nonneg; lia).
  replace (e3 + K) with ((e3 - e1) + (e1 + K)) by lia.
  rewrite Z.pow_add_r by lia. rewrite Z.mul_assoc.
  assert (A1 : q * 2 ^ (e3 - e1) * 2 ^ (e1 + K) <= m2 * 2 ^ (e1 + K))
    by (apply Z.mul_le_mono_nonneg_r; lia).
  assert (A2 : m2 * 2 ^ (e1 + K) <= (shr_m mrs1 + 1) * 2 ^ (e1 + K))
    by (apply Z.mul_le_mono_nonneg_r; lia).
  assert (A3 : shr_m mrs1 * 2 ^ (e1 + K) <= M * 2 ^ (E + K)).
  { replace (e1 + K) with ((e1 - E) + (E + K)) by lia.
    rewrite Z.pow_add_r by lia. rewrite Z.mul_assoc.
    apply Z.mul_le_mono_nonneg_r; lia. }
  assert (A4 : 2 ^ (e1 + K) <= M * 2 ^ (E + K) + 2 ^ (emin64 + K)).
  { assert (T2 : 0 <= 2 ^ (emin64 + K)) by (apply Z.pow_nonneg; lia).
    assert (T3 : 2 ^ (E + K) <= M * 2 ^ (E + K)) by nia.
    destruct C1 as [-> | ->]; [lia|].
    rewrite fexp_value. destruct M as [|M|M]; try lia. simpl Zdigits2.
    pose proof (digits2_pos_bounds M) as [D _].
    set (d := Zpos (digits2_pos M)) in *.
    destruct (Z.max_spec (d + E - 53) (-1074)) as [[_ ->] | [_ ->]].
    - rewrite emin64_value. clear - T3 T0. set (X := 2 ^ (E + K)) in *.
      set (Z0 := 2 ^ (-1074 + K)). lia.
    - assert (Hd : 1 <= d) by (unfold d; lia).
      assert (2 ^ (d + E - 53 + K) <= 2 ^ ((d - 1) + (E + K)))
        by (apply Z.pow_le_mono_r; lia).
      rewrite (Z.pow_add_r 2 (d - 1) (E + K)) in H by lia.
      assert (2 ^ (d - 1) * 2 ^ (E + K) <= Zpos M * 2 ^ (E + K))
        by (apply Z.mul_le_mono_nonneg_r; lia).
      lia. }
  lia.
Qed.

Lemma at_least_1e21_false m e K :
  0 <= e + K -> 0 <= K ->
  Zpos m * 2 ^ (e + K) < 10 ^ 21 * 2 ^ K ->
  at_least_1e21 m e = false.
Proof.
  intros HE HK H. unfold at_least_1e21.
  assert (P : 0 < 2 ^ K) by (apply Z.pow_pos_nonneg; lia).
  destruct e as [|p|p].
  - apply Z.leb_gt. simpl Z.add in H. change (2 ^ 0) with 1. nia.
  - apply Z.leb_gt. rewrite Z.pow_add_r in H by lia.
    set (a := 2 ^ Zpos p) in *. set (b := 2 ^ K) in *.
    rewrite Z.mul_assoc in H. apply Z.mul_lt_mono_pos_r in H; assumption.
  - apply Z.leb_gt.
    assert (Q : 0 < 2 ^ Zpos p) by (apply Z.pow_pos_nonneg; lia).
    replace K with ((Zneg p + K) + Zpos p) in H at 2 by lia.
    rewrite (Z.pow_add_r 2 (Zneg p + K) (Zpos p)) in H by lia.
    assert (R : 0 < 2 ^ (Zneg p + K)) by (apply Z.pow_pos_nonneg; lia).
    set (a := 2 ^ Zpos p) in *. set (b := 2 ^ (Zneg p + K)) in *.
    replace (10 ^ 21 * (b * a)) with (10 ^ 21 * a * b) in H by ring.
    apply Z.mul_lt_mono_pos_r in H; assumption.
Qed.

(** The percentage of a score between 0 and 1 is printed by the
    fixed-point branch of [toFixed], whatever [Number::toString] is. *)
Lemma percent_fixed_point s :
  inUnitInterval s = true ->
  exists n, 0 <= n
            /\ forall toString, toFixed toString 2 (mul s (of_Z 100)) = place_point 2 n.
Proof.
  unfold inUnitInterval. intros H. apply andb_prop in H as [W H].
  apply andb_prop in H as [L0 L1].
  assert (W1 : well_formed (of_Z 1) = true) by reflexivity.
  unfold SFleb in L1. rewrite (@SFcompare_key s (of_Z 1) W W1) in L1.
  assert (K1 : key s <= key (of_Z 1))
    by (destruct (Z.compare_spec (key s) (key (of_Z 1))); try lia; discriminate).
  change (key (of_Z 1)) with (2 ^ 52 * 2 ^ (-52 - emin64)) in K1.
  rewrite emin64_value in K1.
  replace (2 ^ 52 * 2 ^ (-52 - -1074)) with (2 ^ 1074) in K1
    by (rewrite <- Z.pow_add_r by lia; reflexivity).
  change (of_Z 100) with (S754_finite false 7036874417766400 (-46)).
  destruct s as [b|b| |b m e].
  - exists 0. split; [lia|]. intros ts. destruct b; reflexivity.
  - destruct b; discriminate.
  - discriminate.
  - destruct b; [discriminate|]. clear L0.
    apply well_formed_inv in W as [V _]. apply valid_finite in V as (Ve & _).
    unfold key in K1. cbv beta iota delta [cond_Zopp] in K1. rewrite emin64_value in K1.
    unfold mul, SFmul. cbn [xorb].
    destruct (@binary_round_aux_bound false (Zpos (m * 7036874417766400)) (e + -46)
                loc_Exact 1120 ltac:(lia) ltac:(lia)) as (m3 & e3 & P3 & E3 & B & ->).
    rewrite emin64_value in B. change (-1074 + 1120) with 46 in B.
    assert (X : Zpos (m * 7036874417766400) * 2 ^ (e + -46 + 1120) <= 100 * 2 ^ 1120).
    { rewrite Pos2Z.inj_mul. change (Zpos 7036874417766400) with (100 * 2 ^ 46).
      replace (e + -46 + 1120) with (e - -1074) by lia.
      replace (100 * 2 ^ 1120) with (2 ^ 1074 * (100 * 2 ^ 46))
        by (change 1120 with (1074 + 46); rewrite Z.pow_add_r by lia; ring).
      set (k := 2 ^ (e - -1074)) in *. set (c := 100 * 2 ^ 46).
      replace (Zpos m * c * k) with (Zpos m * k * c) by ring.
      apply Z.mul_le_mono_nonneg_r; [unfold c; lia | exact K1]. }
    assert (Y : m3 * 2 ^ (e3 + 1120) < 10 ^ 21 * 2 ^ 1120).
    { assert (2 ^ 46 <= 2 ^ 1120) by (apply Z.pow_le_mono_r; lia).
      assert (0 < 2 ^ 1120) by (apply Z.pow_pos_nonneg; lia).
      set (t := 2 ^ 1120) in *. set (u := 2 ^ 46) in *.
      change (10 ^ 21) with 1000000000000000000000. lia. }
    destruct m3 as [|q|q]; [| |lia].
    + exists 0. split; [lia|]. reflexivity.
    + assert (Z.leb e3 (emax - prec) = true) as ->.
      { apply Z.leb_le. change (emax - prec) with 971.
        destruct (Z.le_gt_cases e3 971) as [|G]; [assumption|exfalso].
        assert (2 ^ (972 + 1120) <= 2 ^ (e3 + 1120)) by (apply Z.pow_le_mono_r; lia).
        rewrite Z.pow_add_r in H by lia.
        assert (0 < 2 ^ 1120) by (apply Z.pow_pos_nonneg; lia).
        change (10 ^ 21) with 1000000000000000000000 in Y.
        assert (1000000000000000000000 < 2 ^ 972) by reflexivity.
        set (t := 2 ^ 1120) in *. set (c := 2 ^ 972) in *.
        set (z := 2 ^ (e3 + 1120)) in *. nia. }
      exists (nearest_scaled 2 q e3). split.
      * unfold nearest_scaled. destruct e3 as [|p|p].
        -- lia.
        -- assert (0 < 2 ^ Zpos p) by (apply Z.pow_pos_nonneg; lia). change (10 ^ Z.of_nat 2) with 100. nia.
        -- apply Z.div_pos.
           ++ assert (0 < 2 ^ Zpos p) by (apply Z.pow_pos_nonneg; lia). change (10 ^ Z.of_nat 2) with 100. lia.
           ++ assert (0 < 2 ^ Zpos p) by (apply Z.pow_pos_nonneg; lia). lia.
      * intros ts. unfold toFixed.
        rewrite (@at_least_1e21_false q e3 1120) by (try lia; exact Y). reflexivity.
Qed.

End PercentBound.

(** X20.  For scores between 0 and 1 the percentages of the description
    are printed in plain fixed-point form: the digits of a non-negative
    integer with a point before the last two, never NaN, Infinity, a sign or
    exponent notation; so the description does not depend on how the engine
    prints large numbers. *)
Theorem percentages_in_fixed_point (w w' : World) (best : option Annotation)
        (l : list Annotation) :
  Forall (fun a => inUnitInterval (score a) = true) l ->
  describe w best l = describe w' best l
  /\ Forall (fun a => exists n, (0 <= n)%Z
                                /\ renderAnnotation w a
                                   = a_description a ++ " (" ++ place_point 2 n
                                                     ++ "%) [" ++ type_ a ++ "]") l.
Proof.
  intros U. split.
  - unfold describe. destruct (orb _ _); [|reflexivity]. f_equal.
    apply map_ext_in. intros a Ha. rewrite Forall_forall in U.
    destruct (percent_fixed_point (score a) (U a Ha)) as (n & _ & Hn).
    unfold renderAnnotation. now rewrite !Hn.
  - eapply Forall_impl; [|exact U]. intros a Ha.
    destruct (percent_fixed_point (score a) Ha) as (n & Pn & Hn).
    exists n. split; [exact Pn|]. unfold renderAnnotation. now rewrite Hn.
Qed.

Lemma percentages_in_fixed_point_witness :
  let w := scenarioWorld (visionAnswers scenarioUnsorted) (inl serviceDown) in
  describe w None (allAnnotationsOf scenarioUnsorted)
  = describe (otherEngine w) None (allAnnotationsOf scenarioUnsorted).
Proof.
  intros w.
  apply (@percentages_in_fixed_point w (otherEngine w) None (allAnnotationsOf scenarioUnsorted)).
  repeat constructor.
Defined.
